(** * Joint diagnostics of naoqi_dcm_driver (src/diagnostics.cpp)

    A shallow embedding of [Diagnostics]: the constructor, the two status
    helpers, [publish] and [getStatusMsg], followed by the properties of the
    classification, the aggregation and the positional use of the bulk read.

    - C++ [float] readings are IEEE 754 values, taken as [spec_float]; only
      the comparison [<] is used on them ([std::max], [std::min] and the two
      threshold tests), so NaN, infinities and signed zeros behave as in the
      program.
    - [_level_type] is a signed byte; it is taken as [Z] with the constants
      of [diagnostic_msgs::DiagnosticStatus].
    - The robot memory service, the conversion of its answer and the text
      form of a [float] on a stream belong to other files or libraries; they
      are variables of the section holding the code.
    - [values[val++]] has no range check; going past the end of [values] is
      the outcome [OutOfRange]. *)

From Stdlib Require Import ZArith List String Ascii Bool Lia PeanoNat.
From Stdlib Require Import Floats.SpecFloat.
From Stdlib Require Import Permutation.
Import ListNotations.

Local Open Scope string_scope.
Local Open Scope Z_scope.

(** ** Floating-point readings *)

Module Float32.

Definition float := spec_float.

Definition prec : Z := 24.
Definition emax : Z := 128.

(** The literal [z.0f] for an integer [z]. *)
Definition of_Z (z : Z) : float := binary_normalize prec emax z 0 false.

(** [a < b], [a <= b] of C++ on [float]: false as soon as one side is NaN. *)
Definition ltb (a b : float) : bool := SFltb a b.
Definition leb (a b : float) : bool := SFleb a b.

(** [std::max(a, b)] is [(a < b) ? b : a]; [std::min(a, b)] is
    [(b < a) ? b : a]. *)
Definition std_max (a b : float) : float := if ltb a b then b else a.
Definition std_min (a b : float) : float := if ltb b a then b else a.

End Float32.

Import Float32.

(** Two finite values of one sign are compared by exponent, then mantissa. *)
Definition lex_le (e1 : Z) (m1 : positive) (e2 : Z) (m2 : positive) : Prop :=
  e1 < e2 \/ (e1 = e2 /\ (m1 <= m2)%positive).

(** ** Strings *)

(** [s.find(pat)]: the first position at which [pat] occurs in [s];
    [None] is [std::string::npos]. *)
Fixpoint find (pat s : string) : option nat :=
  if String.prefix pat s then Some 0%nat
  else match s with
       | EmptyString => None
       | String _ s' => option_map S (find pat s')
       end.

(** [s] contains [pat] as a substring. *)
Definition contains (pat s : string) : Prop :=
  exists pre post : string, s = pre ++ pat ++ post.

(** [std::endl] puts a line feed on the stream. *)
Definition endl : string := String (ascii_of_nat 10) EmptyString.

(** The text ["°C"] of the source file: the degree sign is two bytes. *)
Definition degree_C : string :=
  String (ascii_of_nat 194) (String (ascii_of_nat 176) "C").

(** ** diagnostic_msgs *)

Module DiagnosticStatus.
Definition OK : Z := 0.
Definition WARN : Z := 1.
Definition ERROR : Z := 2.
Definition STALE : Z := 3.
End DiagnosticStatus.

Import DiagnosticStatus.

(** What [add] is given as a value: a [float] or a text. The wrapper writes
    a [float] on a stream to store its text; the record here keeps the value
    that was given. *)
Inductive kv_value : Type :=
| VFloat (f : float)
| VText (s : string).

Record KeyValue : Type := mkKeyValue {
  key : string;
  value : kv_value
}.

(** [diagnostic_updater::DiagnosticStatusWrapper], the fields of
    [diagnostic_msgs::DiagnosticStatus]. *)
Record DiagnosticStatusWrapper : Type := mkStatus {
  level : Z;
  name : string;
  message : string;
  hardware_id : string;
  values : list KeyValue
}.

(** A default-constructed wrapper. *)
Definition empty_status : DiagnosticStatusWrapper :=
  {| level := 0; name := ""; message := ""; hardware_id := ""; values := [] |}.

Definition set_level (l : Z) (s : DiagnosticStatusWrapper) :=
  {| level := l; name := name s; message := message s;
     hardware_id := hardware_id s; values := values s |}.

Definition set_name (n : string) (s : DiagnosticStatusWrapper) :=
  {| level := level s; name := n; message := message s;
     hardware_id := hardware_id s; values := values s |}.

Definition set_message (m : string) (s : DiagnosticStatusWrapper) :=
  {| level := level s; name := name s; message := m;
     hardware_id := hardware_id s; values := values s |}.

Definition set_hardware_id (h : string) (s : DiagnosticStatusWrapper) :=
  {| level := level s; name := name s; message := message s;
     hardware_id := h; values := values s |}.

Definition push_back {A : Type} (v : list A) (x : A) : list A := v ++ [x].

(** [status.add(key, val)] *)
Definition add (k : string) (v : kv_value) (s : DiagnosticStatusWrapper) :=
  {| level := level s; name := name s; message := message s;
     hardware_id := hardware_id s;
     values := push_back (values s) (mkKeyValue k v) |}.

(** [ros::Time] *)
Record Time : Type := mkTime { sec : Z; nsec : Z }.

(** [diagnostic_msgs::DiagnosticArray]: the stamp of the header and the
    status records. *)
Record DiagnosticArray : Type := mkArray {
  stamp : Time;
  status : list DiagnosticStatusWrapper
}.

(** ** The class [Diagnostics] *)

(** The members of the object. [pub_] and [memory_proxy_] are handles to the
    message bus and to the robot: the messages published so far and the
    answer of the robot are arguments of [publish]. *)
Record Diagnostics : Type := mkDiagnostics {
  joints_all_names_ : list string;
  temperature_warn_level_ : float;
  temperature_error_level_ : float;
  status_ : DiagnosticStatusWrapper;
  keys_tocheck_ : list string
}.

Definition set_status_ (st : DiagnosticStatusWrapper) (self : Diagnostics) :=
  {| joints_all_names_ := joints_all_names_ self;
     temperature_warn_level_ := temperature_warn_level_ self;
     temperature_error_level_ := temperature_error_level_ self;
     status_ := st;
     keys_tocheck_ := keys_tocheck_ self |}.

Definition temperature_key (it : string) : string :=
  "Device/SubDeviceList/" ++ it ++ "/Temperature/Sensor/Value".
Definition hardness_key (it : string) : string :=
  "Device/SubDeviceList/" ++ it ++ "/Hardness/Actuator/Value".
Definition current_key (it : string) : string :=
  "Device/SubDeviceList/" ++ it ++ "/ElectricCurrent/Sensor/Value".

(** The body of the constructor's loop: three [push_back]. *)
Definition push_keys (keys : list string) (it : string) : list string :=
  push_back (push_back (push_back keys (temperature_key it))
                       (hardness_key it))
            (current_key it).

(** [Diagnostics::Diagnostics]. Connecting to the memory service can fail;
    the failure is logged and the object is built all the same. *)
Definition Diagnostics_new (joints_all_names : list string)
    (temperature_error_level : float) : Diagnostics :=
  {| joints_all_names_ := joints_all_names;
     temperature_warn_level_ := of_Z 68;
     temperature_error_level_ := temperature_error_level;
     status_ := {| level := OK;
                   name := "naoqi_dcm_driver_joints:Status";
                   message := "OK";
                   hardware_id := "robot";
                   values := [] |};
     keys_tocheck_ := fold_left push_keys joints_all_names [] |}.

(** [Diagnostics::setMessageFromStatus] *)
Definition setMessageFromStatus (status : DiagnosticStatusWrapper)
  : DiagnosticStatusWrapper :=
  if level status =? OK then set_message "OK" status
  else if level status =? WARN then set_message "WARN" status
  else set_message "ERROR" status.

(** [Diagnostics::setAggregatedMessage] *)
Definition setAggregatedMessage (self : Diagnostics)
    (status : DiagnosticStatusWrapper) : Diagnostics :=
  if level status >? level (status_ self)
  then set_status_ (set_message (message status)
                      (set_level (level status) (status_ self))) self
  else self.

(** [Diagnostics::getStatusMsg] *)
Definition getStatusMsg (self : Diagnostics) : string :=
  message (status_ self).

(** ** [Diagnostics::publish] *)

(** A run either ends normally or reads [values] past its end. *)
Inductive outcome (A : Type) : Type :=
| Normal (a : A)
| OutOfRange.

Arguments Normal {A} a.
Arguments OutOfRange {A}.

(** [std::max] on [_level_type]. *)
Definition std_max_level (a b : Z) : Z := if a <? b then b else a.

(** The variables of [publish] that live across the loop over the joints,
    with the object itself ([status_] is written in the loop). *)
Record Loop : Type := mkLoop {
  this : Diagnostics;
  msg_status : list DiagnosticStatusWrapper;
  maxTemperature : float;
  maxStiffness : float;
  minStiffness : float;
  minStiffnessWoHands : float;
  maxCurrent : float;
  minCurrent : float;
  hotJointsSS : string;
  max_level : Z;
  val : nat
}.

(** What a call of [publish] leaves: the value returned, the object, and the
    messages on the output channel. *)
Record Published : Type := mkPublished {
  returned : bool;
  object : Diagnostics;
  channel : list DiagnosticArray
}.

Section Publish.

(** The answer of the memory service, a [qi::AnyValue]. *)
Variable AnyValue : Type.

(** [fromAnyValueToFloatVector] of tools.hpp; [None] when it throws. *)
Variable fromAnyValueToFloatVector : AnyValue -> option (list float).

(** The text a [std::stringstream] writes for a [float]. *)
Variable show_float : float -> string.

(** The two calls inside [try]: [getListData] is the call on the memory
    proxy in this cycle, [None] when it throws. *)
Definition bulk_read (getListData : list string -> option AnyValue)
    (keys : list string) : option (list float) :=
  match getListData keys with
  | Some keys_tocheck_qi => fromAnyValueToFloatVector keys_tocheck_qi
  | None => None
  end.

(** The status record of one joint: name, readings, level and message. *)
Definition joint_status (self : Diagnostics) (it_name : string)
    (temperature stiffness current : float) : DiagnosticStatusWrapper :=
  let status := empty_status in
  let status := set_name ("naoqi_dcm_driver_joints" ++ it_name) status in
  let status := set_hardware_id it_name status in
  let status := add "Temperature" (VFloat temperature) status in
  let status := add "Stiffness" (VFloat stiffness) status in
  let status := add "ElectricCurrent" (VFloat current) status in
  if ltb temperature (temperature_warn_level_ self) then
    set_message "OK" (set_level OK status)
  else if ltb temperature (temperature_error_level_ self) then
    set_message "Hot" (set_level WARN status)
  else
    set_message ("HIGH JOINT TEMPERATURE : " ++ it_name)
                (set_level ERROR status).

(** One turn of the loop over [joints_all_names_], once the three readings
    of the joint are known. *)
Definition loop_update (it_name : string)
    (temperature stiffness current : float) (st : Loop) : Loop :=
  let status :=
    joint_status (this st) it_name temperature stiffness current in
  {| this := setAggregatedMessage (this st) status;
     msg_status := push_back (msg_status st) status;
     maxTemperature := std_max (maxTemperature st) temperature;
     maxStiffness := std_max (maxStiffness st) stiffness;
     minStiffness := std_min (minStiffness st) stiffness;
     minStiffnessWoHands :=
       match find "Hand" it_name with
       | None => std_min (minStiffnessWoHands st) stiffness
       | Some _ => minStiffnessWoHands st
       end;
     maxCurrent := std_max (maxCurrent st) current;
     minCurrent := std_min (minCurrent st) current;
     hotJointsSS :=
       if level status >=? WARN
       then hotJointsSS st ++ endl ++ it_name ++ ": "
              ++ show_float temperature ++ degree_C
       else hotJointsSS st;
     max_level := std_max_level (max_level st) (level status);
     val := val st + 3 |}.

(** One turn of the loop: the three [values[val++]], then the rest. *)
Definition loop_body (values : list float) (it_name : string) (st : Loop)
  : outcome Loop :=
  match nth_error values (val st),
        nth_error values (val st + 1),
        nth_error values (val st + 2) with
  | Some temperature, Some stiffness, Some current =>
    Normal (loop_update it_name temperature stiffness current st)
  | _, _, _ => OutOfRange
  end.

Fixpoint for_joints (values : list float) (names : list string) (st : Loop)
  : outcome Loop :=
  match names with
  | [] => Normal st
  | it_name :: rest =>
    match loop_body values it_name st with
    | Normal st' => for_joints values rest st'
    | OutOfRange => OutOfRange
    end
  end.

(** The locals as they are set before the loop. *)
Definition loop_start (self : Diagnostics) : Loop :=
  {| this := self;
     msg_status := [];
     maxTemperature := of_Z 0;
     maxStiffness := of_Z 0;
     minStiffness := of_Z 1;
     minStiffnessWoHands := of_Z 1;
     maxCurrent := of_Z 0;
     minCurrent := of_Z 10;
     hotJointsSS := "";
     max_level := OK;
     val := 0 |}.

(** The aggregated joints status built after the loop. *)
Definition aggregated_status (st : Loop) : DiagnosticStatusWrapper :=
  let status := empty_status in
  let status := set_name "naoqi_dcm_driver_joints:Status" status in
  let status := set_hardware_id "joints" status in
  let status := set_level (max_level st) status in
  let status := setMessageFromStatus status in
  let status := add "Highest Temperature" (VFloat (maxTemperature st)) status in
  let status := add "Highest Stiffness" (VFloat (maxStiffness st)) status in
  let status := add "Lowest Stiffness" (VFloat (minStiffness st)) status in
  let status := add "Lowest Stiffness without Hands"
                    (VFloat (minStiffnessWoHands st)) status in
  let status := add "Highest Electric Current"
                    (VFloat (maxCurrent st)) status in
  let status := add "Lowest Electric current" (VFloat (minCurrent st)) status in
  add "Hot Joints" (VText (hotJointsSS st)) status.

(** The default status set at the start of [publish]. *)
Definition reset_status (self : Diagnostics) : Diagnostics :=
  set_status_ (set_message "OK" (set_level OK (status_ self))) self.

Definition publish (self : Diagnostics) (now : Time)
    (getListData : list string -> option AnyValue)
    (pub : list DiagnosticArray) : outcome Published :=
  let self := reset_status self in
  match bulk_read getListData (keys_tocheck_ self) with
  | None => Normal {| returned := false; object := self; channel := pub |}
  | Some values =>
    match for_joints values (joints_all_names_ self) (loop_start self) with
    | OutOfRange => OutOfRange
    | Normal st =>
      let msg := {| stamp := now;
                    status := push_back (msg_status st)
                                        (aggregated_status st) |} in
      Normal {| returned :=
                  if level (status_ (this st)) >=? ERROR then false else true;
                object := this st;
                channel := push_back pub msg |}
    end
  end.

End Publish.

Arguments bulk_read {AnyValue}.
Arguments publish {AnyValue}.

(** ** The readings of a cycle *)

(** A joint with its three readings. *)
Record JointReading : Type := mkReading {
  r_joint : string;
  r_temperature : float;
  r_stiffness : float;
  r_current : float
}.

(** The flat answer cut into readings: three consecutive values for each
    joint name, in the order of the names. *)
Fixpoint joint_readings (names : list string) (values : list float)
  : list JointReading :=
  match names, values with
  | it :: rest, t :: s :: c :: values' =>
    mkReading it t s c :: joint_readings rest values'
  | _, _ => []
  end.

Definition status_of_reading (self : Diagnostics) (r : JointReading)
  : DiagnosticStatusWrapper :=
  joint_status self (r_joint r) (r_temperature r) (r_stiffness r) (r_current r).

Definition update_of_reading (show_float : float -> string) (st : Loop)
    (r : JointReading) : Loop :=
  loop_update show_float (r_joint r) (r_temperature r) (r_stiffness r)
              (r_current r) st.

(** The variables of the loop after the readings [rs], from the start of a
    cycle on [self]. *)
Definition after_readings (show_float : float -> string)
    (self : Diagnostics) (rs : list JointReading) : Loop :=
  fold_left (update_of_reading show_float) rs (loop_start (reset_status self)).

(** A maximum and a minimum folded with [std::max] and [std::min] from a
    seed, in the order of the list. *)
Definition highest (seed : float) (l : list float) : float :=
  fold_left std_max l seed.
Definition lowest (seed : float) (l : list float) : float :=
  fold_left std_min l seed.

(** The highest of a list of levels, [OK] when the list is empty. *)
Definition max_severity (levels : list Z) : Z := fold_right Z.max OK levels.

(** The joint's name has no ["Hand"] in it. *)
Definition without_hands (r : JointReading) : bool :=
  match find "Hand" (r_joint r) with
  | None => true
  | Some _ => false
  end.

(** The three keys of a joint, in the order of the constructor. *)
Definition keys_of (it : string) : list string :=
  [ temperature_key it; hardness_key it; current_key it ].

(** The message that goes with a level of the aggregated status. *)
Definition message_of_level (l : Z) : string :=
  if l =? OK then "OK" else if l =? WARN then "WARN" else "ERROR".

(** The value added to a record under a key (the first one). *)
Fixpoint lookup (k : string) (kvs : list KeyValue) : option kv_value :=
  match kvs with
  | [] => None
  | kv :: rest => if String.eqb (key kv) k then Some (value kv)
                  else lookup k rest
  end.

(** The first record that has the highest level of the list. *)
Definition first_worst (recs : list DiagnosticStatusWrapper)
  : option DiagnosticStatusWrapper :=
  List.find (fun r => level r =? max_severity (map level recs)) recs.

(** ** Inputs of the examples *)

(** A conversion that hands the answer over as it is. *)
Definition as_floats (v : list float) : option (list float) := Some v.

(** A stream that writes the same text for every [float]. *)
Definition show_any (f : float) : string := "?".

(** A memory service that answers [vals], and one that throws. *)
Definition answer (vals : list float) (keys : list string)
  : option (list float) := Some vals.
Definition no_answer (keys : list string) : option (list float) := None.

Definition t0 : Time := mkTime 0 0.

(** Two joints, error level 75 degrees. *)
Definition J12 : Diagnostics := Diagnostics_new ["J1"; "J2"] (of_Z 75).

(** 0.5f and 0.1f *)
Definition f_half : float := SFdiv prec emax (of_Z 1) (of_Z 2).
Definition f_tenth : float := SFdiv prec emax (of_Z 1) (of_Z 10).

(** The answer of the robot with J1 at 70 degrees, and with J1 at 80. *)
Definition warm_answer : list float :=
  [ of_Z 70; f_half; of_Z 2; of_Z 60; f_half; of_Z 1 ].
Definition hot_answer : list float :=
  [ of_Z 80; f_half; of_Z 2; of_Z 60; f_half; of_Z 1 ].

(** The result of a cycle known to end normally. *)
Definition completed (o : outcome Published) : Published :=
  match o with
  | Normal res => res
  | OutOfRange => {| returned := false; object := J12; channel := [] |}
  end.

Definition warm_cycle : Published :=
  completed (publish as_floats show_any J12 t0 (answer warm_answer) []).
Definition hot_cycle : Published :=
  completed (publish as_floats show_any J12 t0 (answer hot_answer) []).

(** A hand and a shoulder, with stiffness 0.1 and 0.5. *)
Definition hand_and_shoulder : Diagnostics :=
  Diagnostics_new ["LHand"; "RShoulder"] (of_Z 75).
Definition hand_answer : list float :=
  [ of_Z 60; f_tenth; of_Z 1; of_Z 60; f_half; of_Z 1 ].
Definition hand_cycle : Published :=
  completed (publish as_floats show_any hand_and_shoulder t0
                     (answer hand_answer) []).

(** One joint, with an error level of 50 degrees, below the warn level. *)
Definition low_error_level : Diagnostics := Diagnostics_new ["J1"] (of_Z 50).
Definition low_cycle : Published :=
  completed (publish as_floats show_any low_error_level t0
                     (answer [ of_Z 60; f_half; of_Z 2 ]) []).

(** No joint at all. *)
Definition no_joint : Diagnostics := Diagnostics_new [] (of_Z 75).

(** ** More about a cycle *)

(** A value that is not a number. *)
Definition is_nan (a : float) : bool :=
  match a with
  | S754_nan => true
  | _ => false
  end.

(** The line written on [hotJointsSS] for a joint. *)
Definition hot_line (show_float : float -> string) (r : JointReading)
  : string :=
  endl ++ r_joint r ++ ": " ++ show_float (r_temperature r) ++ degree_C.

(** The test that puts a joint on [hotJointsSS], on the record of the joint. *)
Definition is_hot (self : Diagnostics) (r : JointReading) : bool :=
  level (status_of_reading self r) >=? WARN.

(** The lines of the hot joints among [rs], one after the other. *)
Definition hot_lines (show_float : float -> string) (self : Diagnostics)
    (rs : list JointReading) : string :=
  fold_right (fun r acc => hot_line show_float r ++ acc) ""
             (filter (is_hot self) rs).

(** The temperature is below the warn level or below the error level: the
    two tests that keep a joint away from ERROR. *)
Definition below_a_level (self : Diagnostics) (t : float) : bool :=
  ltb t (temperature_warn_level_ self)
  || ltb t (temperature_error_level_ self).

(** A cycle with a temperature that is not a number. *)
Definition nan_answer : list float :=
  [ of_Z 60; f_half; of_Z 2; S754_nan; f_half; of_Z 1 ].
Definition nan_cycle : Published :=
  completed (publish as_floats show_any J12 t0 (answer nan_answer) []).

(** The two joints in the other order, with their readings. *)
Definition J21 : Diagnostics := Diagnostics_new ["J2"; "J1"] (of_Z 75).
Definition swapped_answer : list float :=
  [ of_Z 60; f_half; of_Z 1; of_Z 70; f_half; of_Z 2 ].
Definition swapped_cycle : Published :=
  completed (publish as_floats show_any J21 t0 (answer swapped_answer) []).

(** * Properties *)

(** ** Order of the readings *)

Lemma SFcompare_swap (a b : float) :
  SFcompare b a = option_map CompOpp (SFcompare a b).
Proof.
  destruct a as [sa|sa| |sa ma ea], b as [sb|sb| |sb mb eb]; simpl;
    try reflexivity;
    try (destruct sa; reflexivity); try (destruct sb; reflexivity);
    try (destruct sa, sb; reflexivity).
  destruct sa, sb; try reflexivity;
    rewrite (Z.compare_antisym ea eb);
    destruct (ea ?= eb)%Z; simpl; try reflexivity;
    change (Pos.compare_cont Eq mb ma) with (Pos.compare mb ma);
    change (Pos.compare_cont Eq ma mb) with (Pos.compare ma mb);
    rewrite (Pos.compare_antisym ma mb); try reflexivity.
Qed.

Lemma leb_not_ltb (a b : float) : leb a b = true -> ltb b a = false.
Proof.
  unfold leb, ltb, SFleb, SFltb. rewrite (SFcompare_swap a b).
  destruct (SFcompare a b) as [[| |]|]; simpl; congruence.
Qed.

Lemma ltb_leb (a b : float) : ltb a b = true -> leb a b = true.
Proof.
  unfold leb, ltb, SFleb, SFltb.
  destruct (SFcompare a b) as [[| |]|]; simpl; congruence.
Qed.

Lemma lex_le_trans e1 m1 e2 m2 e3 m3 :
  lex_le e1 m1 e2 m2 -> lex_le e2 m2 e3 m3 -> lex_le e1 m1 e3 m3.
Proof. unfold lex_le. lia. Qed.

Lemma leb_finite_pos m1 e1 m2 e2 :
  leb (S754_finite false m1 e1) (S754_finite false m2 e2) = true
  <-> lex_le e1 m1 e2 m2.
Proof.
  unfold leb, SFleb, lex_le; simpl.
  change (Pos.compare_cont Eq m1 m2) with (Pos.compare m1 m2).
  destruct (Z.compare_spec e1 e2);
    [ | intuition lia | intuition (lia || discriminate) ].
  destruct (Pos.compare_spec m1 m2); intuition (lia || discriminate).
Qed.

Lemma leb_finite_neg m1 e1 m2 e2 :
  leb (S754_finite true m1 e1) (S754_finite true m2 e2) = true
  <-> lex_le e2 m2 e1 m1.
Proof.
  unfold leb, SFleb, lex_le; simpl.
  change (Pos.compare_cont Eq m1 m2) with (Pos.compare m1 m2).
  destruct (Z.compare_spec e1 e2);
    [ | intuition (lia || discriminate) | intuition lia ].
  destruct (Pos.compare_spec m1 m2); simpl; intuition (lia || discriminate).
Qed.

Lemma leb_trans (a b c : float) :
  leb a b = true -> leb b c = true -> leb a c = true.
Proof.
  destruct a as [sa|sa| |sa ma ea], b as [sb|sb| |sb mb eb],
           c as [sc|sc| |sc mc ec];
    try (destruct sa); try (destruct sb); try (destruct sc);
    try (intros; reflexivity); try (intros; discriminate).
  - rewrite !leb_finite_neg. intros H1 H2.
    exact (lex_le_trans _ _ _ _ _ _ H2 H1).
  - rewrite !leb_finite_pos. apply lex_le_trans.
Qed.

Lemma leb_ltb_trans (a b c : float) :
  leb a b = true -> ltb b c = true -> leb a c = true.
Proof. intros H1 H2. exact (leb_trans a b c H1 (ltb_leb b c H2)). Qed.

Lemma ltb_leb_trans (a b c : float) :
  ltb a b = true -> leb b c = true -> leb a c = true.
Proof. intros H1 H2. exact (leb_trans a b c (ltb_leb a b H1) H2). Qed.

Lemma ltb_nan_l (b : float) : ltb S754_nan b = false.
Proof. reflexivity. Qed.

(** ** The loop over the joints *)

Section Loop_facts.

Variable show_float : float -> string.
Variable values : list float.

Local Abbreviation run := (for_joints show_float values).

Lemma loop_body_Normal it st st' :
  loop_body show_float values it st = Normal st' ->
  exists t s c,
    nth_error values (val st) = Some t /\
    nth_error values (val st + 1) = Some s /\
    nth_error values (val st + 2) = Some c /\
    st' = loop_update show_float it t s c st.
Proof.
  unfold loop_body.
  destruct (nth_error values (val st)) as [t|]; [ | discriminate ].
  destruct (nth_error values (val st + 1)) as [s|]; [ | discriminate ].
  destruct (nth_error values (val st + 2)) as [c|]; [ | discriminate ].
  intros [= <-]. now exists t, s, c.
Qed.

Lemma skipn_three (k : nat) t s c :
  nth_error values k = Some t ->
  nth_error values (k + 1) = Some s ->
  nth_error values (k + 2) = Some c ->
  skipn k values = t :: s :: c :: skipn (k + 3) values.
Proof.
  revert k. induction values as [|x l IH]; intros k Ht Hs Hc.
  - destruct k; discriminate.
  - destruct k as [|k].
    + simpl in *. destruct l as [|y [|z l']]; simpl in *; congruence.
    + simpl in *. now apply IH.
Qed.

(** A run of the loop that ends normally has folded [loop_update] over the
    readings cut from [values] at the position of [val]. *)
Lemma for_joints_readings names : forall st st',
  run names st = Normal st' ->
  let rs := joint_readings names (skipn (val st) values) in
  st' = fold_left (update_of_reading show_float) rs st /\
  map r_joint rs = names.
Proof.
  induction names as [|it rest IH]; intros st st' H; simpl in H |- *.
  - injection H as <-. now split.
  - destruct (loop_body show_float values it st) as [st1|] eqn:Hb;
      [ | discriminate ].
    destruct (loop_body_Normal _ _ _ Hb) as (t & s & c & Ht & Hs & Hc & ->).
    rewrite (skipn_three _ _ _ _ Ht Hs Hc). simpl.
    destruct (IH _ _ H) as [E1 E2]. simpl in E1, E2.
    split; [ exact E1 | now rewrite E2 ].
Qed.

(** With three values left for every joint the loop ends normally. *)
Lemma for_joints_enough names : forall st,
  (val st + 3 * List.length names <= List.length values)%nat ->
  exists st', run names st = Normal st'.
Proof.
  induction names as [|it rest IH]; intros st Hlen; simpl in *.
  - now exists st.
  - unfold loop_body.
    destruct (nth_error values (val st)) as [t|] eqn:Ht;
      [ | apply nth_error_None in Ht; lia ].
    destruct (nth_error values (val st + 1)) as [s|] eqn:Hs;
      [ | apply nth_error_None in Hs; lia ].
    destruct (nth_error values (val st + 2)) as [c|] eqn:Hc;
      [ | apply nth_error_None in Hc; lia ].
    apply IH. simpl. lia.
Qed.

(** Conversely a normal end means that the values were there. *)
Lemma for_joints_Normal_length names : forall st st',
  run names st = Normal st' ->
  names = [] \/ (val st + 3 * List.length names <= List.length values)%nat.
Proof.
  induction names as [|it rest IH]; intros st st' H; simpl in *.
  - now left.
  - right.
    destruct (loop_body show_float values it st) as [st1|] eqn:Hb;
      [ | discriminate ].
    destruct (loop_body_Normal _ _ _ Hb) as (t & s & c & Ht & Hs & Hc & ->).
    destruct (IH _ _ H) as [-> | Hlen].
    + assert (nth_error values (val st + 2) <> None) as Hn by congruence.
      apply nth_error_Some in Hn. simpl. lia.
    + simpl in Hlen. lia.
Qed.

End Loop_facts.

(** ** What the loop leaves in its variables *)

Lemma std_max_level_max (a b : Z) : std_max_level a b = Z.max a b.
Proof. unfold std_max_level. destruct (Z.ltb_spec a b); lia. Qed.

Lemma setAggregatedMessage_members self status :
  let self' := setAggregatedMessage self status in
  joints_all_names_ self' = joints_all_names_ self /\
  temperature_warn_level_ self' = temperature_warn_level_ self /\
  temperature_error_level_ self' = temperature_error_level_ self /\
  keys_tocheck_ self' = keys_tocheck_ self.
Proof.
  unfold setAggregatedMessage.
  destruct (level status >? level (status_ self)); simpl; auto.
Qed.

Lemma setAggregatedMessage_level self status :
  level (status_ (setAggregatedMessage self status))
  = Z.max (level (status_ self)) (level status).
Proof.
  unfold setAggregatedMessage.
  destruct (Z.gtb_spec (level status) (level (status_ self))); simpl; lia.
Qed.

Lemma joint_status_thresholds self self' it t s c :
  temperature_warn_level_ self = temperature_warn_level_ self' ->
  temperature_error_level_ self = temperature_error_level_ self' ->
  joint_status self it t s c = joint_status self' it t s c.
Proof. unfold joint_status. now intros -> ->. Qed.

Lemma status_of_reading_setAggregatedMessage self status r :
  status_of_reading (setAggregatedMessage self status) r
  = status_of_reading self r.
Proof.
  unfold status_of_reading.
  destruct (setAggregatedMessage_members self status) as (_ & Hw & He & _).
  now apply joint_status_thresholds.
Qed.

Lemma joint_status_fields self it t s c :
  let r := joint_status self it t s c in
  name r = "naoqi_dcm_driver_joints" ++ it /\
  hardware_id r = it /\
  values r = [ mkKeyValue "Temperature" (VFloat t);
               mkKeyValue "Stiffness" (VFloat s);
               mkKeyValue "ElectricCurrent" (VFloat c) ].
Proof.
  unfold joint_status.
  destruct (ltb t (temperature_warn_level_ self));
    [ | destruct (ltb t (temperature_error_level_ self)) ];
    simpl; auto.
Qed.

Lemma joint_status_level_range self it t s c :
  let l := level (joint_status self it t s c) in
  l = OK \/ l = WARN \/ l = ERROR.
Proof.
  unfold joint_status.
  destruct (ltb t (temperature_warn_level_ self));
    [ | destruct (ltb t (temperature_error_level_ self)) ];
    simpl; auto.
Qed.

Section Fold_facts.

Variable show_float : float -> string.

Local Abbreviation upd := (update_of_reading show_float).

Lemma fold_this_members rs : forall st,
  let self' := this (fold_left upd rs st) in
  joints_all_names_ self' = joints_all_names_ (this st) /\
  temperature_warn_level_ self' = temperature_warn_level_ (this st) /\
  temperature_error_level_ self' = temperature_error_level_ (this st) /\
  keys_tocheck_ self' = keys_tocheck_ (this st).
Proof.
  induction rs as [|r rs IH]; intros st; simpl; [ now auto | ].
  destruct (IH (upd st r)) as (H1 & H2 & H3 & H4).
  destruct (setAggregatedMessage_members (this st)
              (status_of_reading (this st) r)) as (G1 & G2 & G3 & G4).
  unfold update_of_reading, loop_update in *. simpl in *.
  unfold status_of_reading in *.
  repeat split; congruence.
Qed.

Lemma fold_msg_status rs : forall st,
  msg_status (fold_left upd rs st)
  = (msg_status st ++ map (status_of_reading (this st)) rs)%list.
Proof.
  induction rs as [|r rs IH]; intros st; simpl.
  - now rewrite app_nil_r.
  - rewrite IH. unfold update_of_reading, loop_update. simpl.
    unfold push_back. rewrite <- app_assoc. simpl. do 2 f_equal.
    apply map_ext. intros r'.
    apply status_of_reading_setAggregatedMessage.
Qed.

Lemma fold_max_level rs : forall st,
  max_level (fold_left upd rs st)
  = fold_left Z.max
      (map (fun r => level (status_of_reading (this st) r)) rs)
      (max_level st).
Proof.
  induction rs as [|r rs IH]; intros st; simpl; [ reflexivity | ].
  rewrite IH. unfold update_of_reading, loop_update. simpl.
  rewrite std_max_level_max. f_equal.
  apply map_ext. intros r'.
  now rewrite status_of_reading_setAggregatedMessage.
Qed.

Lemma fold_running_level rs : forall st,
  level (status_ (this (fold_left upd rs st)))
  = fold_left Z.max
      (map (fun r => level (status_of_reading (this st) r)) rs)
      (level (status_ (this st))).
Proof.
  induction rs as [|r rs IH]; intros st; simpl; [ reflexivity | ].
  rewrite IH. unfold update_of_reading, loop_update. simpl.
  rewrite setAggregatedMessage_level. f_equal.
  apply map_ext. intros r'.
  now rewrite status_of_reading_setAggregatedMessage.
Qed.

Lemma fold_statistics rs : forall st,
  let st' := fold_left upd rs st in
  maxTemperature st' = highest (maxTemperature st) (map r_temperature rs) /\
  maxStiffness st' = highest (maxStiffness st) (map r_stiffness rs) /\
  minStiffness st' = lowest (minStiffness st) (map r_stiffness rs) /\
  minStiffnessWoHands st'
    = lowest (minStiffnessWoHands st)
             (map r_stiffness (filter without_hands rs)) /\
  maxCurrent st' = highest (maxCurrent st) (map r_current rs) /\
  minCurrent st' = lowest (minCurrent st) (map r_current rs).
Proof.
  unfold highest, lowest.
  induction rs as [|r rs IH]; intros st; simpl; [ now auto 10 | ].
  destruct (IH (upd st r)) as (H1 & H2 & H3 & H4 & H5 & H6).
  rewrite H1, H2, H3, H4, H5, H6.
  unfold update_of_reading, loop_update, without_hands. simpl.
  destruct (find "Hand" (r_joint r)); simpl; auto 10.
Qed.

End Fold_facts.

(** ** The readings follow the positions of [values] *)

Lemma joint_readings_names names : forall values,
  (3 * List.length names <= List.length values)%nat ->
  map r_joint (joint_readings names values) = names.
Proof.
  induction names as [|it rest IH]; intros values H; [ reflexivity | ].
  destruct values as [|t [|s [|c values']]]; simpl in H; try lia.
  simpl. f_equal. apply IH. lia.
Qed.

Lemma joint_readings_nth names : forall values i r,
  nth_error (joint_readings names values) i = Some r ->
  nth_error names i = Some (r_joint r) /\
  nth_error values (3 * i) = Some (r_temperature r) /\
  nth_error values (3 * i + 1) = Some (r_stiffness r) /\
  nth_error values (3 * i + 2) = Some (r_current r).
Proof.
  induction names as [|it rest IH]; intros values i r H.
  - destruct i; discriminate.
  - destruct values as [|t [|s [|c values']]];
      try (destruct i; discriminate).
    destruct i as [|i]; simpl in H.
    + injection H as <-. simpl. auto.
    + destruct (IH _ _ _ H) as (H1 & H2 & H3 & H4).
      replace (3 * S i)%nat with (S (S (S (3 * i)))) by lia.
      simpl. auto.
Qed.

Lemma map_nth_error_inv {A B : Type} (f : A -> B) (l : list A) i b :
  nth_error (map f l) i = Some b ->
  exists a, nth_error l i = Some a /\ f a = b.
Proof.
  rewrite nth_error_map.
  destruct (nth_error l i) as [a|]; simpl; [ | discriminate ].
  intros [= <-]. now exists a.
Qed.

Lemma fold_max_severity (l : list Z) :
  fold_left Z.max l OK = max_severity l.
Proof.
  unfold max_severity. apply fold_symmetric.
  - intros x y z. apply Z.max_assoc.
  - intros y. apply Z.max_comm.
Qed.

Lemma max_severity_upper (l : list Z) (x : Z) :
  In x l -> x <= max_severity l.
Proof.
  unfold max_severity.
  induction l as [|y l IH]; simpl; [ contradiction | ].
  intros [-> | H]; [ lia | specialize (IH H); lia ].
Qed.

Lemma max_severity_attained (l : list Z) :
  l <> [] -> (forall x, In x l -> OK <= x) -> In (max_severity l) l.
Proof.
  unfold max_severity.
  induction l as [|y l IH]; intros Hne Hge; [ congruence | ].
  simpl. destruct l as [|z l'].
  - simpl. left. specialize (Hge y (or_introl eq_refl)). lia.
  - destruct (Z.max_spec y (fold_right Z.max OK (z :: l'))) as [[_ ->]|[_ ->]].
    + right. apply IH; [ discriminate | ].
      intros x Hx. apply Hge. now right.
    + now left.
Qed.

(** ** [publish] as a whole *)

Section Publish_facts.

Variable AnyValue : Type.
Variable fromAnyValueToFloatVector : AnyValue -> option (list float).
Variable show_float : float -> string.

Local Abbreviation publish' := (publish fromAnyValueToFloatVector show_float).
Local Abbreviation bulk_read' := (bulk_read fromAnyValueToFloatVector).

Lemma publish_failed self now getListData pub :
  bulk_read' getListData (keys_tocheck_ self) = None ->
  publish' self now getListData pub
  = Normal {| returned := false; object := reset_status self;
              channel := pub |}.
Proof.
  unfold publish. simpl. now intros ->.
Qed.

(** A cycle whose bulk read succeeded and that ended normally. *)
Lemma publish_completed self now getListData pub vals res :
  bulk_read' getListData (keys_tocheck_ self) = Some vals ->
  publish' self now getListData pub = Normal res ->
  let rs := joint_readings (joints_all_names_ self) vals in
  let st := after_readings show_float self rs in
  map r_joint rs = joints_all_names_ self /\
  res = {| returned :=
             if level (status_ (this st)) >=? ERROR then false else true;
           object := this st;
           channel :=
             (pub ++ [ {| stamp := now;
                          status := (msg_status st
                                     ++ [aggregated_status st])%list |} ])%list
        |}.
Proof.
  unfold publish. simpl. intros -> H.
  destruct (for_joints show_float vals (joints_all_names_ self)
              (loop_start (reset_status self))) as [st|] eqn:Hrun;
    [ | discriminate ].
  injection H as <-.
  destruct (for_joints_readings _ _ _ _ _ Hrun) as [E1 E2].
  simpl in E1, E2. unfold after_readings. now rewrite <- E1.
Qed.

Lemma publish_enough self now getListData pub vals :
  bulk_read' getListData (keys_tocheck_ self) = Some vals ->
  (3 * List.length (joints_all_names_ self) <= List.length vals)%nat ->
  exists res, publish' self now getListData pub = Normal res.
Proof.
  unfold publish. simpl. intros -> Hlen.
  destruct (for_joints_enough show_float vals (joints_all_names_ self)
              (loop_start (reset_status self)) Hlen) as [st ->].
  eauto.
Qed.

Lemma publish_short self now getListData pub vals :
  bulk_read' getListData (keys_tocheck_ self) = Some vals ->
  (List.length vals < 3 * List.length (joints_all_names_ self))%nat ->
  publish' self now getListData pub = OutOfRange.
Proof.
  unfold publish. simpl. intros -> Hlen.
  destruct (for_joints show_float vals (joints_all_names_ self)
              (loop_start (reset_status self))) as [st|] eqn:Hrun;
    [ | reflexivity ].
  destruct (for_joints_Normal_length _ _ _ _ _ Hrun) as [E | H].
  - rewrite E in Hlen. simpl in Hlen. lia.
  - simpl in H. lia.
Qed.

End Publish_facts.

Lemma after_readings_levels show_float self rs :
  let st := after_readings show_float self rs in
  msg_status st = map (status_of_reading (reset_status self)) rs /\
  max_level st = max_severity (map level (msg_status st)) /\
  level (status_ (this st)) = max_severity (map level (msg_status st)).
Proof.
  unfold after_readings. simpl.
  rewrite fold_msg_status, fold_max_level, fold_running_level. simpl.
  rewrite map_map, fold_max_severity. auto.
Qed.

(** ** The keys built by the constructor *)

Lemma fold_push_keys names : forall keys,
  fold_left push_keys names keys = (keys ++ flat_map keys_of names)%list.
Proof.
  induction names as [|it rest IH]; intros keys; simpl.
  - now rewrite app_nil_r.
  - rewrite IH. unfold push_keys, push_back.
    now rewrite <- !app_assoc.
Qed.

Lemma keys_of_length names :
  List.length (flat_map keys_of names) = (3 * List.length names)%nat.
Proof.
  induction names as [|it rest IH]; simpl; [ reflexivity | ].
  rewrite IH. lia.
Qed.

Lemma keys_of_nth names : forall i it,
  nth_error names i = Some it ->
  nth_error (flat_map keys_of names) (3 * i) = Some (temperature_key it) /\
  nth_error (flat_map keys_of names) (3 * i + 1) = Some (hardness_key it) /\
  nth_error (flat_map keys_of names) (3 * i + 2) = Some (current_key it).
Proof.
  induction names as [|x rest IH]; intros i it H.
  - destruct i; discriminate.
  - destruct i as [|i]; simpl in H.
    + injection H as ->. simpl. auto.
    + replace (3 * S i)%nat with (S (S (S (3 * i)))) by lia.
      simpl. now apply IH.
Qed.

(** ** The record of a completed cycle *)

Lemma setMessageFromStatus_spec status :
  let status' := setMessageFromStatus status in
  level status' = level status /\
  message status' = message_of_level (level status) /\
  name status' = name status /\
  hardware_id status' = hardware_id status /\
  values status' = values status.
Proof.
  unfold setMessageFromStatus, message_of_level.
  destruct (level status =? OK); [ | destruct (level status =? WARN) ];
    simpl; auto.
Qed.

Lemma aggregated_status_spec st :
  aggregated_status st
  = {| level := max_level st;
       name := "naoqi_dcm_driver_joints:Status";
       message := message_of_level (max_level st);
       hardware_id := "joints";
       values :=
         [ mkKeyValue "Highest Temperature" (VFloat (maxTemperature st));
           mkKeyValue "Highest Stiffness" (VFloat (maxStiffness st));
           mkKeyValue "Lowest Stiffness" (VFloat (minStiffness st));
           mkKeyValue "Lowest Stiffness without Hands"
                      (VFloat (minStiffnessWoHands st));
           mkKeyValue "Highest Electric Current" (VFloat (maxCurrent st));
           mkKeyValue "Lowest Electric current" (VFloat (minCurrent st));
           mkKeyValue "Hot Joints" (VText (hotJointsSS st)) ] |}.
Proof.
  unfold aggregated_status, setMessageFromStatus, message_of_level. simpl.
  destruct (max_level st =? OK); [ | destruct (max_level st =? WARN) ];
    reflexivity.
Qed.

(** The per-joint records of a completed cycle, one for each joint, each
    built from the three values at the joint's position. *)
Lemma records_positional self vals :
  let rs := joint_readings (joints_all_names_ self) vals in
  map r_joint rs = joints_all_names_ self ->
  forall i it,
    nth_error (joints_all_names_ self) i = Some it ->
    exists t s c,
      nth_error vals (3 * i) = Some t /\
      nth_error vals (3 * i + 1) = Some s /\
      nth_error vals (3 * i + 2) = Some c /\
      nth_error rs i = Some (mkReading it t s c).
Proof.
  intros rs Hnames i it Hi.
  rewrite <- Hnames in Hi.
  destruct (map_nth_error_inv _ _ _ _ Hi) as (r & Hr & <-).
  destruct (joint_readings_nth _ _ _ _ Hr) as (_ & Ht & Hs & Hc).
  exists (r_temperature r), (r_stiffness r), (r_current r).
  repeat split; try assumption. now destruct r.
Qed.

Lemma for_joints_running_level show_float values names : forall st st',
  for_joints show_float values names st = Normal st' ->
  level (status_ (this st)) <= level (status_ (this st')).
Proof.
  induction names as [|it rest IH]; intros st st' H; simpl in H.
  - injection H as <-. lia.
  - destruct (loop_body show_float values it st) as [st1|] eqn:Hb;
      [ | discriminate ].
    destruct (loop_body_Normal _ _ _ _ _ Hb) as (t & s & c & _ & _ & _ & ->).
    specialize (IH _ _ H). simpl in IH.
    rewrite setAggregatedMessage_level in IH. lia.
Qed.

Lemma for_joints_app show_float values n1 : forall n2 st st2,
  for_joints show_float values (n1 ++ n2) st = Normal st2 ->
  exists st1,
    for_joints show_float values n1 st = Normal st1 /\
    for_joints show_float values n2 st1 = Normal st2.
Proof.
  induction n1 as [|it rest IH]; intros n2 st st2 H; simpl in *.
  - now exists st.
  - destruct (loop_body show_float values it st) as [st'|];
      [ now apply IH | discriminate ].
Qed.

(** ** Substrings *)

Lemma prefix_iff pat : forall s,
  String.prefix pat s = true <-> exists post, s = pat ++ post.
Proof.
  induction pat as [|a pat IH]; intros s.
  - destruct s; simpl; split; eauto.
  - destruct s as [|b s]; simpl.
    + split; [ discriminate | intros [post H]; discriminate ].
    + destruct (ascii_dec a b) as [->|Hab].
      * rewrite IH. split; intros [post H]; exists post; congruence.
      * split; [ discriminate | intros [post H]; congruence ].
Qed.

Lemma contains_cases pat s :
  contains pat s <->
  String.prefix pat s = true \/
  exists a s', s = String a s' /\ contains pat s'.
Proof.
  unfold contains. split.
  - intros ([|a pre] & post & H).
    + left. apply prefix_iff. now exists post.
    + right. exists a, (pre ++ pat ++ post). split; [ exact H | ].
      now exists pre, post.
  - intros [H | (a & s' & -> & pre & post & ->)].
    + apply prefix_iff in H. destruct H as [post ->].
      now exists "", post.
    + now exists (String a pre), post.
Qed.

Lemma find_Some_contains pat : forall s n,
  find pat s = Some n -> contains pat s.
Proof.
  induction s as [|a s IH]; intros n; rewrite contains_cases;
    cbn [find option_map].
  - destruct (String.prefix pat ""); [ now left | discriminate ].
  - destruct (String.prefix pat (String a s)); [ now left | ].
    destruct (find pat s) as [m|]; [ | discriminate ].
    intros _. right. exists a, s. split; [ reflexivity | ]. now apply (IH m).
Qed.

Lemma find_None_not_contains pat : forall s,
  find pat s = None -> ~ contains pat s.
Proof.
  induction s as [|a s IH]; rewrite contains_cases; cbn [find option_map].
  - destruct (String.prefix pat ""); [ discriminate | ].
    intros _ [H | (b & s' & H & _)]; discriminate.
  - destruct (String.prefix pat (String a s)); [ discriminate | ].
    destruct (find pat s) as [m|]; [ discriminate | ].
    intros _ [H | (b & s' & H & Hc)]; [ discriminate | ].
    injection H as _ <-. now apply IH.
Qed.

Lemma find_None_iff pat s : find pat s = None <-> ~ contains pat s.
Proof.
  split; [ apply find_None_not_contains | ].
  destruct (find pat s) as [n|] eqn:H; [ | reflexivity ].
  intros Hn. exfalso. apply Hn. exact (find_Some_contains _ _ _ H).
Qed.

(** ** Bounds of the folded statistics *)

Lemma highest_lower_bound (z : float) (l : list float) : forall seed,
  leb z seed = true -> leb z (highest seed l) = true.
Proof.
  unfold highest. induction l as [|x l IH]; intros seed H; simpl.
  - exact H.
  - apply IH. unfold std_max. destruct (ltb seed x) eqn:Hlt.
    + exact (leb_ltb_trans _ _ _ H Hlt).
    + exact H.
Qed.

Lemma lowest_upper_bound (z : float) (l : list float) : forall seed,
  leb seed z = true -> leb (lowest seed l) z = true.
Proof.
  unfold lowest. induction l as [|x l IH]; intros seed H; simpl.
  - exact H.
  - apply IH. unfold std_min. destruct (ltb x seed) eqn:Hlt.
    + exact (ltb_leb_trans _ _ _ Hlt H).
    + exact H.
Qed.

(** ** The level of one joint *)

Lemma classification_by_temperature self it t s c :
  leb (temperature_warn_level_ self) (temperature_error_level_ self) = true ->
  let r := joint_status self it t s c in
  (ltb t (temperature_warn_level_ self) = true ->
   level r = OK /\ message r = "OK") /\
  (leb (temperature_warn_level_ self) t = true ->
   ltb t (temperature_error_level_ self) = true ->
   level r = WARN /\ message r = "Hot") /\
  (leb (temperature_error_level_ self) t = true ->
   level r = ERROR /\ message r = "HIGH JOINT TEMPERATURE : " ++ it).
Proof.
  intros HWE. unfold joint_status.
  destruct (ltb t (temperature_warn_level_ self)) eqn:H1;
    [ | destruct (ltb t (temperature_error_level_ self)) eqn:H2 ]; simpl.
  - split; [ auto | ]. split.
    + intros H. apply leb_not_ltb in H. congruence.
    + intros H. pose proof (leb_trans _ _ _ HWE H) as H'.
      apply leb_not_ltb in H'. congruence.
  - split; [ discriminate | ]. split; [ auto | ].
    intros H. apply leb_not_ltb in H. congruence.
  - split; [ discriminate | ]. split; [ discriminate | auto ].
Qed.

(** ** The message of the running status *)

Lemma find_app_first {A : Type} (f : A -> bool) (l1 l2 : list A) :
  List.find f (l1 ++ l2)
  = match List.find f l1 with
    | Some x => Some x
    | None => List.find f l2
    end.
Proof.
  induction l1 as [|x l1 IH]; simpl; [ reflexivity | ].
  destruct (f x); [ reflexivity | exact IH ].
Qed.

Lemma find_nowhere {A : Type} (f : A -> bool) (l : list A) :
  (forall x, In x l -> f x = false) -> List.find f l = None.
Proof.
  induction l as [|x l IH]; intros H; simpl; [ reflexivity | ].
  rewrite (H x (or_introl eq_refl)). apply IH.
  intros y Hy. apply H. now right.
Qed.

Lemma max_severity_snoc (l : list Z) (a : Z) :
  max_severity (l ++ [a]) = Z.max (max_severity l) a.
Proof.
  rewrite <- !fold_max_severity, fold_left_app. reflexivity.
Qed.

Lemma joint_status_message_by_level self it t s c :
  let r := joint_status self it t s c in
  (level r = OK -> message r = "OK") /\
  (level r = WARN -> message r = "Hot") /\
  (level r = ERROR -> message r = "HIGH JOINT TEMPERATURE : " ++ it).
Proof.
  unfold joint_status.
  destruct (ltb t (temperature_warn_level_ self));
    [ | destruct (ltb t (temperature_error_level_ self)) ];
    simpl; repeat split; intros H; (reflexivity || discriminate H).
Qed.

Lemma status_of_reading_level_OK self r :
  OK <= level (status_of_reading self r).
Proof.
  unfold status_of_reading.
  destruct (joint_status_level_range self (r_joint r) (r_temperature r)
              (r_stiffness r) (r_current r)) as [E|[E|E]];
    rewrite E; unfold OK, WARN, ERROR; lia.
Qed.

Lemma status_of_reading_after show_float self rs r :
  status_of_reading (this (after_readings show_float self rs)) r
  = status_of_reading self r.
Proof.
  unfold after_readings, status_of_reading.
  destruct (fold_this_members show_float rs (loop_start (reset_status self)))
    as (_ & Hw & He & _).
  now apply joint_status_thresholds.
Qed.

(** After the readings [rs] the running status holds the message of the
    first record that reached the highest level, "OK" when there is none. *)
Lemma after_readings_message show_float self rs :
  message (status_ (this (after_readings show_float self rs)))
  = match first_worst (map (status_of_reading self) rs) with
    | Some r => message r
    | None => "OK"
    end.
Proof.
  induction rs as [|q rs IH] using rev_ind; [ reflexivity | ].
  destruct (after_readings_levels show_float self rs) as (Hmsg & _ & Hlvl).
  rewrite Hmsg in Hlvl.
  change (status_of_reading (reset_status self))
    with (status_of_reading self) in Hlvl.
  unfold after_readings in *. rewrite fold_left_app. simpl.
  set (st := fold_left (update_of_reading show_float) rs
               (loop_start (reset_status self))) in *.
  pose proof (status_of_reading_after show_float self rs q) as Hq.
  unfold after_readings, status_of_reading in Hq. fold st in Hq.
  rewrite Hq. clear Hq.
  change (joint_status self (r_joint q) (r_temperature q) (r_stiffness q)
            (r_current q)) with (status_of_reading self q).
  set (x := status_of_reading self q).
  set (recs := map (status_of_reading self) rs) in *.
  set (M := max_severity (map level recs)) in *.
  assert (first_worst (map (status_of_reading self) (rs ++ [q]))
          = match List.find (fun r => level r =? Z.max M (level x)) recs with
            | Some y => Some y
            | None => if level x =? Z.max M (level x) then Some x else None
            end) as Hfw.
  { unfold first_worst. rewrite !map_app. simpl. fold recs x.
    rewrite max_severity_snoc. fold M. now rewrite find_app_first. }
  rewrite Hfw. clear Hfw.
  assert (forall r, In r recs -> level r <= M) as Hup.
  { intros r Hr. apply max_severity_upper. now apply in_map. }
  unfold setAggregatedMessage. rewrite Hlvl.
  destruct (Z.gtb_spec (level x) M) as [Hgt|Hle]; simpl.
  - rewrite Z.max_r by lia. rewrite find_nowhere.
    + now rewrite Z.eqb_refl.
    + intros r Hr. specialize (Hup r Hr). apply Z.eqb_neq. lia.
  - rewrite Z.max_l by lia. rewrite IH. unfold first_worst. fold recs M.
    destruct (List.find (fun r => level r =? M) recs) as [y|] eqn:Hf;
      [ reflexivity | ].
    destruct (Z.eqb_spec (level x) M) as [HxM|]; [ | reflexivity ].
    assert (recs = []) as Hnil.
    { destruct recs as [|r0 recs0] eqn:Hrecs; [ reflexivity | exfalso ].
      assert (In M (map level (r0 :: recs0))) as Hin.
      { apply max_severity_attained; [ discriminate | ].
        intros l Hl. apply in_map_iff in Hl. destruct Hl as (r & <- & Hr).
        unfold recs in Hrecs.
        assert (In r (map (status_of_reading self) rs)) as Hr'
            by (rewrite Hrecs; exact Hr).
        apply in_map_iff in Hr'. destruct Hr' as (q' & <- & _).
        apply status_of_reading_level_OK. }
      apply in_map_iff in Hin. destruct Hin as (r & Hr & Hin).
      pose proof (find_none _ _ Hf r Hin) as Hno. simpl in Hno.
      apply Z.eqb_neq in Hno. congruence. }
    assert (M = OK) as HM by (unfold M; rewrite Hnil; reflexivity).
    symmetry.
    apply (joint_status_message_by_level self (r_joint q) (r_temperature q)
             (r_stiffness q) (r_current q)).
    fold (status_of_reading self q). fold x. congruence.
Qed.

(** A reading that is not a number is below no threshold: its joint is at
    level ERROR. *)
Lemma nan_reading_is_error self it s c :
  level (joint_status self it S754_nan s c) = ERROR.
Proof. unfold joint_status. rewrite !ltb_nan_l. reflexivity. Qed.

(** * The claims *)

Section Claims.

Variable AnyValue : Type.
Variable fromAnyValueToFloatVector : AnyValue -> option (list float).
Variable show_float : float -> string.

(** C3: when the bulk read of the reading keys raises, [publish] returns
    false, the output channel is left as it was (no message for the cycle),
    and the running overall status is the one set at the start of the cycle:
    level OK, message "OK". *)
Theorem publish_query_failure self now getListData pub :
  bulk_read fromAnyValueToFloatVector getListData
            (keys_tocheck_ self) = None ->
  exists self',
    publish fromAnyValueToFloatVector show_float self now getListData
            pub
    = Normal {| returned := false; object := self'; channel := pub |} /\
    level (status_ self') = OK /\
    message (status_ self') = "OK" /\
    getStatusMsg self' = "OK".
Proof.
  intros H. exists (reset_status self).
  rewrite (publish_failed _ _ _ _ _ _ _ H).
  repeat split.
Qed.

(** C4: a cycle that completes returns false exactly when the final running
    overall level is ERROR or more; that level is the highest level of the
    per-joint records of the cycle, so a cycle whose highest per-joint level
    is WARN returns true. *)
Theorem publish_return_value self now getListData pub vals res :
  bulk_read fromAnyValueToFloatVector getListData
            (keys_tocheck_ self) = Some vals ->
  publish fromAnyValueToFloatVector show_float self now getListData
          pub = Normal res ->
  (returned res = false <-> ERROR <= level (status_ (object res))) /\
  exists recs agg,
    channel res
    = (pub ++ [ {| stamp := now; status := (recs ++ [agg])%list |} ])%list /\
    List.length recs = List.length (joints_all_names_ self) /\
    level (status_ (object res)) = max_severity (map level recs) /\
    (max_severity (map level recs) = WARN -> returned res = true).
Proof.
  intros Hread Hpub.
  destruct (publish_completed _ _ _ _ _ _ _ _ _ Hread Hpub) as [Hnames ->].
  set (rs := joint_readings (joints_all_names_ self) vals) in *.
  destruct (after_readings_levels show_float self rs) as (Hmsg & _ & Hlvl).
  simpl. split.
  - destruct (Z.geb_spec
                (level (status_ (this (after_readings show_float self rs))))
                ERROR); split; (congruence || lia).
  - exists (msg_status (after_readings show_float self rs)),
           (aggregated_status (after_readings show_float self rs)).
    split; [ reflexivity | ]. split.
    + rewrite Hmsg, length_map, <- Hnames, length_map. reflexivity.
    + split; [ exact Hlvl | ].
      rewrite <- Hlvl. intros ->. reflexivity.
Qed.

(** C9: the loop indexes the answer of the bulk read without a length check.
    With at least three values for each joint the cycle ends normally (no
    read is out of range); with fewer values a read is out of range. *)
Theorem publish_in_range self now getListData pub vals :
  bulk_read fromAnyValueToFloatVector getListData
            (keys_tocheck_ self) = Some vals ->
  ((3 * List.length (joints_all_names_ self) <= List.length vals)%nat ->
   exists res,
     publish fromAnyValueToFloatVector show_float self now getListData
             pub = Normal res) /\
  ((List.length vals < 3 * List.length (joints_all_names_ self))%nat ->
   publish fromAnyValueToFloatVector show_float self now getListData
           pub = OutOfRange).
Proof.
  intros Hread. split; intros Hlen.
  - exact (publish_enough _ _ _ _ _ _ _ _ Hread Hlen).
  - exact (publish_short _ _ _ _ _ _ _ _ Hread Hlen).
Qed.

(** C5: the keys built by the constructor are three for each joint name, the
    temperature, stiffness and current key of each joint in the order of the
    names; [publish] keeps the names and the keys, and the record of the
    i-th joint is built from the values 3i, 3i+1 and 3i+2 of the answer, as
    temperature, stiffness and current. *)
Theorem keys_and_values_positional names E :
  let d := Diagnostics_new names E in
  joints_all_names_ d = names /\
  keys_tocheck_ d = flat_map keys_of names /\
  List.length (keys_tocheck_ d) = (3 * List.length names)%nat /\
  (forall i it,
      nth_error names i = Some it ->
      nth_error (keys_tocheck_ d) (3 * i) = Some (temperature_key it) /\
      nth_error (keys_tocheck_ d) (3 * i + 1) = Some (hardness_key it) /\
      nth_error (keys_tocheck_ d) (3 * i + 2) = Some (current_key it)) /\
  (forall self now getListData pub vals res,
      bulk_read fromAnyValueToFloatVector getListData
                (keys_tocheck_ self) = Some vals ->
      publish fromAnyValueToFloatVector show_float self now getListData
              pub = Normal res ->
      joints_all_names_ (object res) = joints_all_names_ self /\
      keys_tocheck_ (object res) = keys_tocheck_ self /\
      exists recs agg,
        channel res
        = (pub ++ [ {| stamp := now;
                       status := (recs ++ [agg])%list |} ])%list /\
        List.length recs = List.length (joints_all_names_ self) /\
        forall i it,
          nth_error (joints_all_names_ self) i = Some it ->
          exists t s c,
            nth_error vals (3 * i) = Some t /\
            nth_error vals (3 * i + 1) = Some s /\
            nth_error vals (3 * i + 2) = Some c /\
            nth_error recs i = Some (joint_status self it t s c) /\
            hardware_id (joint_status self it t s c) = it /\
            values (joint_status self it t s c)
            = [ mkKeyValue "Temperature" (VFloat t);
                mkKeyValue "Stiffness" (VFloat s);
                mkKeyValue "ElectricCurrent" (VFloat c) ]).
Proof.
  simpl. rewrite fold_push_keys. simpl.
  split; [ reflexivity | ]. split; [ reflexivity | ].
  split; [ apply keys_of_length | ].
  split; [ apply keys_of_nth | ].
  intros self now getListData pub vals res Hread Hpub.
  destruct (publish_completed _ _ _ _ _ _ _ _ _ Hread Hpub) as [Hnames ->].
  set (rs := joint_readings (joints_all_names_ self) vals) in *.
  destruct (after_readings_levels show_float self rs) as (Hmsg & _ & _).
  destruct (fold_this_members show_float rs (loop_start (reset_status self)))
    as (Hj & _ & _ & Hk).
  simpl. split; [ exact Hj | ]. split; [ exact Hk | ].
  exists (msg_status (after_readings show_float self rs)),
         (aggregated_status (after_readings show_float self rs)).
  split; [ reflexivity | ]. split.
  - rewrite Hmsg, length_map, <- Hnames, length_map. reflexivity.
  - intros i it Hi.
    destruct (records_positional self vals Hnames i it Hi)
      as (t & s & c & Ht & Hs & Hc & Hr).
    exists t, s, c. repeat split; try assumption.
    + fold rs in Hr. rewrite Hmsg, nth_error_map, Hr. reflexivity.
    + apply (joint_status_fields self it t s c).
    + apply (joint_status_fields self it t s c).
Qed.

(** C2: in the message of a completed cycle the aggregated record comes
    after the per-joint records; its level is the highest of their levels
    (OK < WARN < ERROR) and its message depends on that level only: "OK" for
    OK, "WARN" for WARN, "ERROR" for anything else. *)
Theorem aggregate_level_and_message self now getListData pub vals res :
  bulk_read fromAnyValueToFloatVector getListData
            (keys_tocheck_ self) = Some vals ->
  publish fromAnyValueToFloatVector show_float self now getListData
          pub = Normal res ->
  exists recs agg,
    channel res
    = (pub ++ [ {| stamp := now; status := (recs ++ [agg])%list |} ])%list /\
    List.length recs = List.length (joints_all_names_ self) /\
    level agg = max_severity (map level recs) /\
    (forall r, In r recs -> level r <= level agg) /\
    (recs <> [] -> exists r, In r recs /\ level r = level agg) /\
    message agg = message_of_level (level agg).
Proof.
  intros Hread Hpub.
  destruct (publish_completed _ _ _ _ _ _ _ _ _ Hread Hpub) as [Hnames ->].
  set (rs := joint_readings (joints_all_names_ self) vals) in *.
  destruct (after_readings_levels show_float self rs) as (Hmsg & Hmax & _).
  set (st := after_readings show_float self rs) in *.
  exists (msg_status st), (aggregated_status st).
  rewrite aggregated_status_spec. simpl.
  split; [ reflexivity | ]. split.
  { rewrite Hmsg, length_map, <- Hnames, length_map. reflexivity. }
  split; [ exact Hmax | ]. split.
  { intros r Hr. rewrite Hmax. apply max_severity_upper. now apply in_map. }
  split; [ | reflexivity ].
  intros Hne. rewrite Hmax.
  assert (In (max_severity (map level (msg_status st)))
             (map level (msg_status st))) as Hin.
  { apply max_severity_attained.
    - destruct (msg_status st); [ congruence | discriminate ].
    - intros x Hx. apply in_map_iff in Hx. destruct Hx as (r & <- & Hr).
      rewrite Hmsg in Hr. apply in_map_iff in Hr. destruct Hr as (q & <- & _).
      destruct (joint_status_level_range (reset_status self) (r_joint q)
                  (r_temperature q) (r_stiffness q) (r_current q))
        as [E0|[E0|E0]]; unfold status_of_reading; rewrite E0;
        unfold OK, WARN, ERROR; lia. }
  apply in_map_iff in Hin. destruct Hin as (r & Hr & Hin). now exists r.
Qed.

(** C6: [setAggregatedMessage] writes the level and the message of a record
    into the running status only when the record's level is strictly higher,
    and leaves the object as it is otherwise. In a cycle the running status
    starts at OK with "OK", and every turn of the loop does just that with
    the record of its joint, the one it appends to the message: a strictly
    higher level brings the record's level and message, anything else leaves
    level and message as they were. So from the reset at the start of a
    cycle to its end the running level never goes down, whatever the point
    of the loop; the loop is the one [publish] runs on the joints of the
    object, and its last state is what [publish] leaves and publishes. *)
Theorem running_status_escalates :
  (forall self status,
      let self' := setAggregatedMessage self status in
      (level (status_ self) < level status ->
       level (status_ self') = level status /\
       message (status_ self') = message status) /\
      (level status <= level (status_ self) -> self' = self) /\
      level (status_ self) <= level (status_ self')) /\
  (forall self values n1 n2 st2,
      for_joints show_float values (n1 ++ n2) (loop_start (reset_status self))
      = Normal st2 ->
      exists st1,
        for_joints show_float values n1 (loop_start (reset_status self))
        = Normal st1 /\
        for_joints show_float values n2 st1 = Normal st2 /\
        OK <= level (status_ (this st1)) /\
        level (status_ (this st1)) <= level (status_ (this st2))) /\
  (forall self values n1 it n2 st_end,
      for_joints show_float values (n1 ++ it :: n2)
                 (loop_start (reset_status self))
      = Normal st_end ->
      exists st1 st1' t s c,
        for_joints show_float values n1 (loop_start (reset_status self))
        = Normal st1 /\
        nth_error values (val st1) = Some t /\
        nth_error values (val st1 + 1) = Some s /\
        nth_error values (val st1 + 2) = Some c /\
        loop_body show_float values it st1 = Normal st1' /\
        for_joints show_float values n2 st1' = Normal st_end /\
        let r := joint_status (this st1) it t s c in
        msg_status st1' = (msg_status st1 ++ [r])%list /\
        (level (status_ (this st1)) < level r ->
         level (status_ (this st1')) = level r /\
         message (status_ (this st1')) = message r) /\
        (level r <= level (status_ (this st1)) -> this st1' = this st1) /\
        OK <= level (status_ (this st1)) /\
        level (status_ (this st1)) <= level (status_ (this st1')) /\
        level (status_ (this st1')) <= level (status_ (this st_end))) /\
  (forall self,
      level (status_ (this (loop_start (reset_status self)))) = OK /\
      message (status_ (this (loop_start (reset_status self)))) = "OK") /\
  (forall self now getListData pub vals res,
      bulk_read fromAnyValueToFloatVector getListData
                (keys_tocheck_ self) = Some vals ->
      publish fromAnyValueToFloatVector show_float self now getListData
              pub = Normal res ->
      exists st_end,
        for_joints show_float vals (joints_all_names_ self)
                   (loop_start (reset_status self))
        = Normal st_end /\
        object res = this st_end /\
        channel res
        = (pub ++
           [ {| stamp := now;
                status := (msg_status st_end
                           ++ [aggregated_status st_end])%list |} ])%list).
Proof.
  assert (forall self status,
             let self' := setAggregatedMessage self status in
             (level (status_ self) < level status ->
              level (status_ self') = level status /\
              message (status_ self') = message status) /\
             (level status <= level (status_ self) -> self' = self) /\
             level (status_ self) <= level (status_ self')) as Hset.
  { intros self status. simpl. unfold setAggregatedMessage.
    destruct (Z.gtb_spec (level status) (level (status_ self))); simpl.
    + repeat split; (reflexivity || lia).
    + repeat split; (reflexivity || lia). }
  split; [ exact Hset | ]. split; [ | split ].
  - intros self values n1 n2 st2 H.
    destruct (for_joints_app _ _ _ _ _ _ H) as (st1 & H1 & H2).
    exists st1. split; [ exact H1 | ]. split; [ exact H2 | ]. split.
    + exact (for_joints_running_level _ _ _ _ _ H1).
    + exact (for_joints_running_level _ _ _ _ _ H2).
  - intros self values n1 it n2 st_end H.
    destruct (for_joints_app _ _ _ _ _ _ H) as (st1 & H1 & H2).
    cbn [for_joints] in H2.
    destruct (loop_body show_float values it st1) as [st1'|] eqn:Hb;
      [ | discriminate ].
    destruct (loop_body_Normal _ _ _ _ _ Hb) as (t & s & c & Ht & Hs & Hc & E).
    exists st1, st1', t, s, c.
    split; [ exact H1 | ]. split; [ exact Ht | ]. split; [ exact Hs | ].
    split; [ exact Hc | ]. split; [ exact Hb | ]. split; [ exact H2 | ].
    destruct (Hset (this st1) (joint_status (this st1) it t s c))
      as (Hup & Hsame & Hmono).
    rewrite E. unfold loop_update. cbn [this msg_status]. unfold push_back.
    split; [ reflexivity | ]. split; [ exact Hup | ].
    split; [ exact Hsame | ]. split.
    + exact (for_joints_running_level _ _ _ _ _ H1).
    + split; [ exact Hmono | ].
      pose proof (for_joints_running_level _ _ _ _ _ H2) as Hend.
      rewrite E in Hend. unfold loop_update in Hend.
      cbn [this] in Hend. exact Hend.
  - split; [ intros self; split; reflexivity | ].
    intros self now getListData pub vals res Hread Hpub.
    revert Hread Hpub. unfold publish. simpl. intros -> Hpub.
    destruct (for_joints show_float vals (joints_all_names_ self)
                (loop_start (reset_status self))) as [st_end|] eqn:Hrun;
      [ | discriminate ].
    injection Hpub as <-. exists st_end.
    split; [ reflexivity | ]. split; reflexivity.
Qed.

(** C1 (as amended): with the warn level 68.0 of the constructor and an
    error level E of at least 68.0, the record of each joint of a cycle has
    level OK and message "OK" if its temperature t is below 68.0, level WARN
    and message "Hot" if 68.0 <= t < E, and level ERROR and message
    "HIGH JOINT TEMPERATURE : <joint>" (a space on each side of the colon)
    if t >= E; the level and the message are the same whatever the stiffness
    and the current. *)
Theorem joint_classification self now getListData pub vals res :
  temperature_warn_level_ self = of_Z 68 ->
  leb (of_Z 68) (temperature_error_level_ self) = true ->
  bulk_read fromAnyValueToFloatVector getListData
            (keys_tocheck_ self) = Some vals ->
  publish fromAnyValueToFloatVector show_float self now getListData
          pub = Normal res ->
  exists recs agg,
    channel res
    = (pub ++ [ {| stamp := now; status := (recs ++ [agg])%list |} ])%list /\
    forall i it,
      nth_error (joints_all_names_ self) i = Some it ->
      exists t s c r,
        nth_error vals (3 * i) = Some t /\
        nth_error vals (3 * i + 1) = Some s /\
        nth_error vals (3 * i + 2) = Some c /\
        nth_error recs i = Some r /\
        (ltb t (of_Z 68) = true -> level r = OK /\ message r = "OK") /\
        (leb (of_Z 68) t = true ->
         ltb t (temperature_error_level_ self) = true ->
         level r = WARN /\ message r = "Hot") /\
        (leb (temperature_error_level_ self) t = true ->
         level r = ERROR /\
         message r = "HIGH JOINT TEMPERATURE : " ++ it) /\
        (forall s' c',
            level r = level (joint_status self it t s' c') /\
            message r = message (joint_status self it t s' c')).
Proof.
  intros HW HWE Hread Hpub.
  destruct (publish_completed _ _ _ _ _ _ _ _ _ Hread Hpub) as [Hnames ->].
  set (rs := joint_readings (joints_all_names_ self) vals) in *.
  destruct (after_readings_levels show_float self rs) as (Hmsg & _ & _).
  set (st := after_readings show_float self rs) in *.
  exists (msg_status st), (aggregated_status st).
  split; [ reflexivity | ].
  intros i it Hi.
  destruct (records_positional self vals Hnames i it Hi)
    as (t & s & c & Ht & Hs & Hc & Hr).
  exists t, s, c, (joint_status self it t s c).
  split; [ exact Ht | ]. split; [ exact Hs | ]. split; [ exact Hc | ].
  split.
  { fold rs in Hr. rewrite Hmsg, nth_error_map, Hr. reflexivity. }
  rewrite <- HW in HWE |- *.
  destruct (classification_by_temperature self it t s c HWE) as (A & B & C).
  split; [ exact A | ]. split; [ exact B | ]. split; [ exact C | ].
  intros s' c'. unfold joint_status.
  destruct (ltb t (temperature_warn_level_ self));
    [ | destruct (ltb t (temperature_error_level_ self)) ];
    split; reflexivity.
Qed.

(** C7: in the aggregated record of a completed cycle "Lowest Stiffness
    without Hands" is the minimum folded over the stiffness of exactly the
    joints whose name does not contain "Hand", and "Lowest Stiffness" the
    minimum folded over the stiffness of all joints. With LHand at 0.1 and
    RShoulder at 0.5 the first is 0.5 and the second is 0.1. *)
Theorem lowest_stiffness_without_hands :
  (forall self now getListData pub vals res,
      bulk_read fromAnyValueToFloatVector getListData
                (keys_tocheck_ self) = Some vals ->
      publish fromAnyValueToFloatVector show_float self now getListData
              pub = Normal res ->
      let rs := joint_readings (joints_all_names_ self) vals in
      map r_joint rs = joints_all_names_ self /\
      exists recs agg,
        channel res
        = (pub ++ [ {| stamp := now;
                       status := (recs ++ [agg])%list |} ])%list /\
        lookup "Lowest Stiffness without Hands" (values agg)
        = Some (VFloat (lowest (of_Z 1)
                          (map r_stiffness (filter without_hands rs)))) /\
        lookup "Lowest Stiffness" (values agg)
        = Some (VFloat (lowest (of_Z 1) (map r_stiffness rs)))) /\
  (forall r, without_hands r = true <-> ~ contains "Hand" (r_joint r)) /\
  (forall t c t' c',
      let rs := [ mkReading "LHand" t f_tenth c;
                  mkReading "RShoulder" t' f_half c' ] in
      lowest (of_Z 1) (map r_stiffness (filter without_hands rs)) = f_half /\
      lowest (of_Z 1) (map r_stiffness rs) = f_tenth).
Proof.
  split; [ | split ].
  - intros self now getListData pub vals res Hread Hpub.
    destruct (publish_completed _ _ _ _ _ _ _ _ _ Hread Hpub) as [Hnames ->].
    simpl. split; [ exact Hnames | ].
    set (rs := joint_readings (joints_all_names_ self) vals) in *.
    set (st := after_readings show_float self rs) in *.
    exists (msg_status st), (aggregated_status st).
    split; [ reflexivity | ].
    rewrite aggregated_status_spec.
    destruct (fold_statistics show_float rs (loop_start (reset_status self)))
      as (_ & _ & H3 & H4 & _ & _).
    cbn [values lookup key value].
    change (fold_left (update_of_reading show_float) rs
              (loop_start (reset_status self))) with st in H3, H4.
    simpl in H3, H4. rewrite H3, H4. split; reflexivity.
  - intros r. unfold without_hands.
    rewrite <- find_None_iff.
    destruct (find "Hand" (r_joint r)); split; congruence.
  - intros t c t' c'. split; reflexivity.
Qed.

(** C10: the statistics are folded from the seeds 0.0, 1.0 and 10.0, so in
    the aggregated record of a completed cycle the three maxima are at least
    0.0, the two minima of the stiffness at most 1.0 and the minimum of the
    current at most 10.0, whatever the readings; with no joint at all the
    cycle publishes one message holding only the aggregated record, with
    level OK, the seeds as statistics and an empty text of hot joints, and
    returns true. *)
Theorem statistics_seeds :
  (forall self now getListData pub vals res,
      bulk_read fromAnyValueToFloatVector getListData
                (keys_tocheck_ self) = Some vals ->
      publish fromAnyValueToFloatVector show_float self now getListData
              pub = Normal res ->
      exists recs agg maxT maxS minS minSWH maxC minC hot,
        channel res
        = (pub ++ [ {| stamp := now;
                       status := (recs ++ [agg])%list |} ])%list /\
        values agg
        = [ mkKeyValue "Highest Temperature" (VFloat maxT);
            mkKeyValue "Highest Stiffness" (VFloat maxS);
            mkKeyValue "Lowest Stiffness" (VFloat minS);
            mkKeyValue "Lowest Stiffness without Hands" (VFloat minSWH);
            mkKeyValue "Highest Electric Current" (VFloat maxC);
            mkKeyValue "Lowest Electric current" (VFloat minC);
            mkKeyValue "Hot Joints" (VText hot) ] /\
        leb (of_Z 0) maxT = true /\
        leb (of_Z 0) maxS = true /\
        leb (of_Z 0) maxC = true /\
        leb minS (of_Z 1) = true /\
        leb minSWH (of_Z 1) = true /\
        leb minC (of_Z 10) = true) /\
  (forall self now getListData pub vals,
      joints_all_names_ self = [] ->
      bulk_read fromAnyValueToFloatVector getListData
                (keys_tocheck_ self) = Some vals ->
      publish fromAnyValueToFloatVector show_float self now getListData
              pub
      = Normal
          {| returned := true;
             object := reset_status self;
             channel :=
               (pub ++
                [ {| stamp := now;
                     status :=
                       [ {| level := OK;
                            name := "naoqi_dcm_driver_joints:Status";
                            message := "OK";
                            hardware_id := "joints";
                            values :=
                              [ mkKeyValue "Highest Temperature"
                                           (VFloat (of_Z 0));
                                mkKeyValue "Highest Stiffness"
                                           (VFloat (of_Z 0));
                                mkKeyValue "Lowest Stiffness"
                                           (VFloat (of_Z 1));
                                mkKeyValue "Lowest Stiffness without Hands"
                                           (VFloat (of_Z 1));
                                mkKeyValue "Highest Electric Current"
                                           (VFloat (of_Z 0));
                                mkKeyValue "Lowest Electric current"
                                           (VFloat (of_Z 10));
                                mkKeyValue "Hot Joints" (VText "") ] |} ]
                  |} ])%list |}).
Proof.
  split.
  - intros self now getListData pub vals res Hread Hpub.
    destruct (publish_completed _ _ _ _ _ _ _ _ _ Hread Hpub) as [_ ->].
    set (rs := joint_readings (joints_all_names_ self) vals) in *.
    set (st := after_readings show_float self rs) in *.
    exists (msg_status st), (aggregated_status st),
      (maxTemperature st), (maxStiffness st), (minStiffness st),
      (minStiffnessWoHands st), (maxCurrent st), (minCurrent st),
      (hotJointsSS st).
    split; [ reflexivity | ].
    split; [ now rewrite aggregated_status_spec | ].
    destruct (fold_statistics show_float rs (loop_start (reset_status self)))
      as (H1 & H2 & H3 & H4 & H5 & H6).
    change (fold_left (update_of_reading show_float) rs
              (loop_start (reset_status self))) with st
      in H1, H2, H3, H4, H5, H6.
    rewrite H1, H2, H3, H4, H5, H6. simpl.
    repeat split;
      (apply highest_lower_bound || apply lowest_upper_bound); reflexivity.
  - intros self now getListData pub vals Hj Hread.
    unfold publish. simpl.
    rewrite Hread, Hj. reflexivity.
Qed.

(** C8 (as amended): [getStatusMsg] returns the message of the running
    overall status. It is "OK" after the constructor and after a cycle whose
    bulk read raised. After a completed cycle it is the message of the first
    per-joint record that reached the highest level of the cycle: "OK" when
    that level is OK, "Hot" when it is WARN, and
    "HIGH JOINT TEMPERATURE : <joint>" for a joint of the list when it is
    ERROR. *)
Theorem status_message :
  (forall self, getStatusMsg self = message (status_ self)) /\
  (forall names E, getStatusMsg (Diagnostics_new names E) = "OK") /\
  (forall self now getListData pub,
      bulk_read fromAnyValueToFloatVector getListData
                (keys_tocheck_ self) = None ->
      exists self',
        publish fromAnyValueToFloatVector show_float self now getListData
                pub
        = Normal {| returned := false; object := self'; channel := pub |} /\
        getStatusMsg self' = "OK") /\
  (forall self now getListData pub vals res,
      bulk_read fromAnyValueToFloatVector getListData
                (keys_tocheck_ self) = Some vals ->
      publish fromAnyValueToFloatVector show_float self now getListData
              pub = Normal res ->
      exists recs agg,
        channel res
        = (pub ++ [ {| stamp := now;
                       status := (recs ++ [agg])%list |} ])%list /\
        level agg = max_severity (map level recs) /\
        getStatusMsg (object res)
        = match first_worst recs with
          | Some r => message r
          | None => "OK"
          end /\
        (level agg = OK -> getStatusMsg (object res) = "OK") /\
        (level agg = WARN -> getStatusMsg (object res) = "Hot") /\
        (level agg = ERROR ->
         exists it, In it (joints_all_names_ self) /\
           getStatusMsg (object res) = "HIGH JOINT TEMPERATURE : " ++ it)).
Proof.
  split; [ reflexivity | ]. split; [ reflexivity | ]. split.
  - intros self now getListData pub H. exists (reset_status self).
    rewrite (publish_failed _ _ _ _ _ _ _ H). split; reflexivity.
  - intros self now getListData pub vals res Hread Hpub.
    destruct (publish_completed _ _ _ _ _ _ _ _ _ Hread Hpub) as [Hnames ->].
    set (rs := joint_readings (joints_all_names_ self) vals) in *.
    destruct (after_readings_levels show_float self rs) as (Hmsg & Hmax & _).
    pose proof (after_readings_message show_float self rs) as Hrun.
    set (st := after_readings show_float self rs) in *.
    change (status_of_reading (reset_status self))
      with (status_of_reading self) in Hmsg.
    rewrite <- Hmsg in Hrun.
    exists (msg_status st), (aggregated_status st).
    rewrite aggregated_status_spec. unfold getStatusMsg. simpl.
    split; [ reflexivity | ]. split; [ exact Hmax | ].
    split; [ exact Hrun | ].
    rewrite Hrun, Hmax. clear Hrun Hmax.
    destruct (first_worst (msg_status st)) as [r|] eqn:Hfw.
    + unfold first_worst in Hfw. apply find_some in Hfw.
      destruct Hfw as [Hin Hlv]. apply Z.eqb_eq in Hlv. rewrite <- Hlv.
      rewrite Hmsg in Hin. apply in_map_iff in Hin.
      destruct Hin as (q & <- & Hq).
      destruct (joint_status_message_by_level self (r_joint q)
                  (r_temperature q) (r_stiffness q) (r_current q))
        as (A & B & C).
      split; [ exact A | ]. split; [ exact B | ].
      intros HE. exists (r_joint q). split; [ | exact (C HE) ].
      rewrite <- Hnames. now apply in_map.
    + assert (msg_status st = []) as Hnil.
      { destruct (msg_status st) as [|r0 recs0] eqn:Hrecs;
          [ reflexivity | exfalso ].
        assert (In (max_severity (map level (r0 :: recs0)))
                   (map level (r0 :: recs0))) as Hin.
        { apply max_severity_attained; [ discriminate | ].
          intros l Hl. apply in_map_iff in Hl. destruct Hl as (r & <- & Hr).
          rewrite Hmsg in Hr. apply in_map_iff in Hr.
          destruct Hr as (q & <- & _). apply status_of_reading_level_OK. }
        apply in_map_iff in Hin. destruct Hin as (r & Hr & Hin).
        unfold first_worst in Hfw.
        pose proof (find_none _ _ Hfw r Hin) as Hno. cbv beta in Hno.
        apply Z.eqb_neq in Hno. congruence. }
      rewrite Hnil. simpl.
      split; [ reflexivity | ]. split; discriminate.
Qed.

End Claims.

(** * The claims on worked cycles *)

Lemma publish_query_failure_witness :
  bulk_read as_floats no_answer (keys_tocheck_ J12) = None /\
  exists self',
    publish as_floats show_any J12 t0 no_answer []
    = Normal {| returned := false; object := self'; channel := [] |} /\
    level (status_ self') = OK /\
    message (status_ self') = "OK" /\
    getStatusMsg self' = "OK".
Proof.
  split; [ reflexivity | ].
  apply (publish_query_failure (list float) as_floats show_any J12 t0
           no_answer []).
  reflexivity.
Defined.

Lemma publish_return_value_witness :
  bulk_read as_floats (answer warm_answer) (keys_tocheck_ J12)
  = Some warm_answer /\
  publish as_floats show_any J12 t0 (answer warm_answer) []
  = Normal warm_cycle /\
  (returned warm_cycle = false
   <-> ERROR <= level (status_ (object warm_cycle))).
Proof.
  split; [ reflexivity | ]. split; [ reflexivity | ].
  apply (publish_return_value (list float) as_floats show_any J12 t0
           (answer warm_answer) [] warm_answer warm_cycle);
    reflexivity.
Defined.

Lemma publish_in_range_witness :
  bulk_read as_floats (answer warm_answer) (keys_tocheck_ J12)
  = Some warm_answer /\
  (3 * List.length (joints_all_names_ J12) <= List.length warm_answer)%nat /\
  exists res,
    publish as_floats show_any J12 t0 (answer warm_answer) [] = Normal res.
Proof.
  split; [ reflexivity | ]. split; [ simpl; lia | ].
  apply (publish_in_range (list float) as_floats show_any J12 t0
           (answer warm_answer) [] warm_answer);
    [ reflexivity | simpl; lia ].
Defined.

Lemma keys_and_values_positional_witness :
  nth_error (joints_all_names_ J12) 1 = Some "J2" /\
  nth_error (keys_tocheck_ J12) 4
  = Some "Device/SubDeviceList/J2/Hardness/Actuator/Value" /\
  joints_all_names_ (object warm_cycle) = joints_all_names_ J12 /\
  keys_tocheck_ (object warm_cycle) = keys_tocheck_ J12.
Proof.
  destruct (keys_and_values_positional (list float) as_floats show_any
              ["J1"; "J2"] (of_Z 75)) as (_ & _ & _ & Hkeys & Hpub).
  split; [ reflexivity | ]. split.
  - exact (proj1 (proj2 (Hkeys 1%nat "J2" eq_refl))).
  - destruct (Hpub J12 t0 (answer warm_answer) [] warm_answer warm_cycle
                eq_refl eq_refl) as (Hj & Hk & _).
    split; [ exact Hj | exact Hk ].
Defined.

Lemma aggregate_level_and_message_witness :
  bulk_read as_floats (answer warm_answer) (keys_tocheck_ J12)
  = Some warm_answer /\
  publish as_floats show_any J12 t0 (answer warm_answer) []
  = Normal warm_cycle /\
  exists recs agg,
    channel warm_cycle
    = ([] ++ [ {| stamp := t0; status := (recs ++ [agg])%list |} ])%list /\
    List.length recs = List.length (joints_all_names_ J12) /\
    level agg = max_severity (map level recs) /\
    (forall r, In r recs -> level r <= level agg) /\
    (recs <> [] -> exists r, In r recs /\ level r = level agg) /\
    message agg = message_of_level (level agg).
Proof.
  split; [ reflexivity | ]. split; [ reflexivity | ].
  apply (aggregate_level_and_message (list float) as_floats show_any J12 t0
           (answer warm_answer) [] warm_answer warm_cycle);
    reflexivity.
Defined.

Lemma running_status_escalates_witness :
  exists st_end st1 st1',
    for_joints show_any hot_answer (["J1"] ++ "J2" :: [])
               (loop_start (reset_status J12)) = Normal st_end /\
    for_joints show_any hot_answer ["J1"] (loop_start (reset_status J12))
    = Normal st1 /\
    loop_body show_any hot_answer "J2" st1 = Normal st1' /\
    for_joints show_any hot_answer [] st1' = Normal st_end /\
    OK <= level (status_ (this st1)) /\
    level (status_ (this st1)) <= level (status_ (this st1')) /\
    level (status_ (this st1')) <= level (status_ (this st_end)).
Proof.
  exists (after_readings show_any J12
            (joint_readings ["J1"; "J2"] hot_answer)).
  destruct (proj1 (proj2 (proj2 (running_status_escalates (list float)
                                   as_floats show_any)))
              J12 hot_answer ["J1"] "J2" []
              (after_readings show_any J12
                 (joint_readings ["J1"; "J2"] hot_answer)) eq_refl)
    as (st1 & st1' & t & s & c & H1 & _ & _ & _ & Hb & H2 & _ & _ & _
        & H3 & H4 & H5).
  exists st1, st1'. split; [ reflexivity | ].
  split; [ exact H1 | ]. split; [ exact Hb | ]. split; [ exact H2 | ].
  split; [ exact H3 | ]. split; [ exact H4 | exact H5 ].
Defined.

Lemma joint_classification_witness :
  temperature_warn_level_ J12 = of_Z 68 /\
  leb (of_Z 68) (temperature_error_level_ J12) = true /\
  bulk_read as_floats (answer warm_answer) (keys_tocheck_ J12)
  = Some warm_answer /\
  publish as_floats show_any J12 t0 (answer warm_answer) []
  = Normal warm_cycle /\
  exists recs agg,
    channel warm_cycle
    = ([] ++ [ {| stamp := t0; status := (recs ++ [agg])%list |} ])%list /\
    exists t s c r,
      nth_error warm_answer (3 * 0) = Some t /\
      nth_error warm_answer (3 * 0 + 1) = Some s /\
      nth_error warm_answer (3 * 0 + 2) = Some c /\
      nth_error recs 0 = Some r /\
      (leb (of_Z 68) t = true ->
       ltb t (temperature_error_level_ J12) = true ->
       level r = WARN /\ message r = "Hot").
Proof.
  split; [ reflexivity | ]. split; [ reflexivity | ].
  split; [ reflexivity | ]. split; [ reflexivity | ].
  destruct (joint_classification (list float) as_floats show_any J12 t0
              (answer warm_answer) [] warm_answer warm_cycle
              eq_refl eq_refl eq_refl eq_refl) as (recs & agg & Hch & Hall).
  exists recs, agg. split; [ exact Hch | ].
  destruct (Hall 0%nat "J1" eq_refl)
    as (t & s & c & r & Ht & Hs & Hc & Hr & _ & Hwarn & _).
  exists t, s, c, r.
  split; [ exact Ht | ]. split; [ exact Hs | ]. split; [ exact Hc | ].
  split; [ exact Hr | exact Hwarn ].
Defined.

Lemma lowest_stiffness_without_hands_witness :
  bulk_read as_floats (answer hand_answer) (keys_tocheck_ hand_and_shoulder)
  = Some hand_answer /\
  publish as_floats show_any hand_and_shoulder t0 (answer hand_answer) []
  = Normal hand_cycle /\
  exists recs agg,
    channel hand_cycle
    = ([] ++ [ {| stamp := t0; status := (recs ++ [agg])%list |} ])%list /\
    lookup "Lowest Stiffness without Hands" (values agg)
    = Some (VFloat f_half) /\
    lookup "Lowest Stiffness" (values agg) = Some (VFloat f_tenth).
Proof.
  split; [ reflexivity | ]. split; [ reflexivity | ].
  exact (proj2 (proj1 (lowest_stiffness_without_hands (list float) as_floats
                         show_any)
                  hand_and_shoulder t0 (answer hand_answer) [] hand_answer
                  hand_cycle eq_refl eq_refl)).
Defined.

Lemma statistics_seeds_witness :
  joints_all_names_ no_joint = [] /\
  bulk_read as_floats (answer warm_answer) (keys_tocheck_ no_joint)
  = Some warm_answer /\
  exists agg,
    publish as_floats show_any no_joint t0 (answer warm_answer) []
    = Normal {| returned := true;
                object := reset_status no_joint;
                channel := [ {| stamp := t0; status := [ agg ] |} ] |} /\
    level agg = OK /\
    lookup "Hot Joints" (values agg) = Some (VText "").
Proof.
  split; [ reflexivity | ]. split; [ reflexivity | ].
  eexists. split.
  - exact (proj2 (statistics_seeds (list float) as_floats show_any)
             no_joint t0 (answer warm_answer) [] warm_answer
             eq_refl eq_refl).
  - split; reflexivity.
Defined.

Lemma status_message_witness :
  bulk_read as_floats (answer hot_answer) (keys_tocheck_ J12)
  = Some hot_answer /\
  publish as_floats show_any J12 t0 (answer hot_answer) []
  = Normal hot_cycle /\
  exists recs agg,
    channel hot_cycle
    = ([] ++ [ {| stamp := t0; status := (recs ++ [agg])%list |} ])%list /\
    (level agg = ERROR ->
     exists it, In it (joints_all_names_ J12) /\
       getStatusMsg (object hot_cycle) = "HIGH JOINT TEMPERATURE : " ++ it).
Proof.
  split; [ reflexivity | ]. split; [ reflexivity | ].
  destruct (proj2 (proj2 (proj2 (status_message (list float) as_floats
                                   show_any)))
              J12 t0 (answer hot_answer) [] hot_answer hot_cycle
              eq_refl eq_refl)
    as (recs & agg & Hch & _ & _ & _ & _ & Herr).
  exists recs, agg. split; [ exact Hch | exact Herr ].
Defined.

(** The claim C1 as it is worded fails on two cycles. With J1 at 80 degrees
    and the error level at 75, the record of J1 has level ERROR and its
    message is not "HIGH JOINT TEMPERATURE: J1": the text of the program has
    a space before the colon. With an error level of 50 degrees, below the
    warn level, a joint at 60 degrees is at or above the error level and its
    record has level OK, not ERROR. *)
Lemma joint_classification_as_worded_fails :
  (exists r rest,
      publish as_floats show_any J12 t0 (answer hot_answer) []
      = Normal hot_cycle /\
      channel hot_cycle = [ {| stamp := t0; status := r :: rest |} ] /\
      hardware_id r = "J1" /\
      nth_error hot_answer 0 = Some (of_Z 80) /\
      leb (temperature_error_level_ J12) (of_Z 80) = true /\
      level r = ERROR /\
      message r <> "HIGH JOINT TEMPERATURE: J1") /\
  (exists r rest,
      publish as_floats show_any low_error_level t0
              (answer [ of_Z 60; f_half; of_Z 2 ]) []
      = Normal low_cycle /\
      channel low_cycle = [ {| stamp := t0; status := r :: rest |} ] /\
      hardware_id r = "J1" /\
      leb (temperature_error_level_ low_error_level) (of_Z 60) = true /\
      level r = OK /\
      level r <> ERROR).
Proof.
  split.
  - exists (joint_status J12 "J1" (of_Z 80) f_half (of_Z 2)).
    eexists. split; [ reflexivity | ]. split; [ reflexivity | ].
    repeat split. discriminate.
  - exists (joint_status low_error_level "J1" (of_Z 60) f_half (of_Z 2)).
    eexists. split; [ reflexivity | ]. split; [ reflexivity | ].
    repeat split. discriminate.
Qed.

(** The claim C8 as it is worded fails on the cycle with J1 at 70 degrees:
    the cycle completes and returns true, the aggregated record has the
    message "WARN", and [getStatusMsg] returns "Hot", the message of the
    record of J1. *)
Lemma status_message_as_worded_fails :
  exists recs agg,
    publish as_floats show_any J12 t0 (answer warm_answer) []
    = Normal warm_cycle /\
    channel warm_cycle
    = [ {| stamp := t0; status := (recs ++ [agg])%list |} ] /\
    List.length recs = 2%nat /\
    returned warm_cycle = true /\
    message agg = "WARN" /\
    getStatusMsg (object warm_cycle) = "Hot" /\
    getStatusMsg (object warm_cycle) <> message agg.
Proof.
  exists [ joint_status J12 "J1" (of_Z 70) f_half (of_Z 2);
           joint_status J12 "J2" (of_Z 60) f_half (of_Z 1) ].
  eexists. split; [ reflexivity | ]. split; [ reflexivity | ].
  repeat split. discriminate.
Qed.

(** ** The two cycles described with the program *)

(** The readings of the examples are single-precision values. *)
Example answers_are_binary32 :
  forallb (valid_binary prec emax) (warm_answer ++ hot_answer ++ hand_answer)
  = true.
Proof. reflexivity. Qed.

Example warn_level_literal :
  temperature_warn_level_ J12 = S754_finite false 8912896 (-17).
Proof. reflexivity. Qed.

(** J1 at 70 degrees: J1 is WARN with "Hot", J2 is OK, the aggregated record
    is WARN, the text of hot joints names J1, and the cycle returns true. *)
Example warm_cycle_result :
  publish as_floats show_any J12 t0 (answer warm_answer) []
  = Normal warm_cycle /\
  map (fun r => (hardware_id r, level r, message r))
      (flat_map status (channel warm_cycle))
  = [ ("J1", WARN, "Hot"); ("J2", OK, "OK"); ("joints", WARN, "WARN") ] /\
  flat_map (fun r => match lookup "Hot Joints" (values r) with
                     | Some v => [v]
                     | None => []
                     end)
           (flat_map status (channel warm_cycle))
  = [ VText (endl ++ "J1: " ++ show_any (of_Z 70) ++ degree_C) ] /\
  returned warm_cycle = true.
Proof. repeat split. Qed.

(** J1 at 80 degrees: J1 is ERROR and the cycle returns false. *)
Example hot_cycle_result :
  publish as_floats show_any J12 t0 (answer hot_answer) []
  = Normal hot_cycle /\
  map (fun r => (hardware_id r, level r, message r))
      (flat_map status (channel hot_cycle))
  = [ ("J1", ERROR, "HIGH JOINT TEMPERATURE : J1"); ("J2", OK, "OK");
      ("joints", ERROR, "ERROR") ] /\
  returned hot_cycle = false.
Proof. repeat split. Qed.

(** Five values for two joints: the sixth read is past the end. *)
Example short_answer_out_of_range :
  publish as_floats show_any J12 t0
          (answer [ of_Z 70; f_half; of_Z 2; of_Z 60; f_half ]) []
  = OutOfRange.
Proof. reflexivity. Qed.

(** * Further properties of the code *)

(** ** More on the order of the readings *)

Lemma leb_refl (a : float) : is_nan a = false -> leb a a = true.
Proof.
  destruct a as [s|s| |s m e]; simpl; intros H;
    try reflexivity; try discriminate; try (destruct s; reflexivity).
  destruct s.
  - apply leb_finite_neg. right. split; [ reflexivity | apply Pos.le_refl ].
  - apply leb_finite_pos. right. split; [ reflexivity | apply Pos.le_refl ].
Qed.

Lemma leb_true_not_nan (a b : float) :
  leb a b = true -> is_nan a = false /\ is_nan b = false.
Proof.
  destruct a, b; simpl; intros H; split; (reflexivity || discriminate).
Qed.

Lemma ltb_true_not_nan (a b : float) :
  ltb a b = true -> is_nan a = false /\ is_nan b = false.
Proof. intros H. apply leb_true_not_nan. now apply ltb_leb. Qed.

Lemma compare_not_nan (a b : float) :
  is_nan a = false -> is_nan b = false -> exists c, SFcompare a b = Some c.
Proof.
  destruct a, b; simpl; intros Ha Hb; try discriminate; eauto.
Qed.

(** Two values that are numbers are comparable. *)
Lemma leb_total (a b : float) :
  is_nan a = false -> is_nan b = false ->
  ltb a b = false -> leb b a = true.
Proof.
  intros Ha Hb. destruct (compare_not_nan a b Ha Hb) as [c Hc].
  unfold ltb, leb, SFltb, SFleb. rewrite (SFcompare_swap a b), Hc.
  destruct c; simpl; congruence.
Qed.

Lemma leb_ltb_strict (a b c : float) :
  leb a b = true -> ltb b c = true -> ltb a c = true.
Proof.
  intros H1 H2.
  destruct (ltb a c) eqn:Hac; [ reflexivity | exfalso ].
  destruct (leb_true_not_nan _ _ H1) as [Ha _].
  destruct (ltb_true_not_nan _ _ H2) as [_ Hc].
  pose proof (leb_total a c Ha Hc Hac) as Hca.
  pose proof (leb_trans _ _ _ Hca H1) as Hcb.
  apply leb_not_ltb in Hcb. congruence.
Qed.

(** ** The level of a record, from the two tests on the temperature *)

Lemma joint_status_level self it t s c :
  level (joint_status self it t s c)
  = if ltb t (temperature_warn_level_ self) then OK
    else if ltb t (temperature_error_level_ self) then WARN
    else ERROR.
Proof.
  unfold joint_status.
  destruct (ltb t (temperature_warn_level_ self));
    [ | destruct (ltb t (temperature_error_level_ self)) ]; reflexivity.
Qed.

Lemma level_ERROR_iff self it t s c :
  level (joint_status self it t s c) = ERROR <-> below_a_level self t = false.
Proof.
  rewrite joint_status_level. unfold below_a_level.
  destruct (ltb t (temperature_warn_level_ self));
    [ | destruct (ltb t (temperature_error_level_ self)) ];
    simpl; split; (reflexivity || discriminate).
Qed.

Lemma level_below_ERROR_iff self it t s c :
  level (joint_status self it t s c) < ERROR <-> below_a_level self t = true.
Proof.
  rewrite joint_status_level. unfold below_a_level, OK, WARN, ERROR.
  destruct (ltb t (temperature_warn_level_ self));
    [ | destruct (ltb t (temperature_error_level_ self)) ];
    simpl; split; intros H; (reflexivity || lia || discriminate).
Qed.

Lemma max_severity_below (l : list Z) (b : Z) :
  OK < b -> (max_severity l < b <-> Forall (fun x => x < b) l).
Proof.
  intros Hb. unfold max_severity. induction l as [|x l IH]; simpl.
  - split; [ constructor | intros _; exact Hb ].
  - split.
    + intros H. constructor; [ lia | apply IH; lia ].
    + intros H. inversion H as [|y l' Hx Hl]; subst.
      apply IH in Hl. lia.
Qed.

Lemma max_severity_range (l : list Z) :
  Forall (fun x => x = OK \/ x = WARN \/ x = ERROR) l ->
  max_severity l = OK \/ max_severity l = WARN \/ max_severity l = ERROR.
Proof.
  unfold max_severity, OK, WARN, ERROR.
  induction l as [|x l IH]; intros H; simpl; [ now left | ].
  inversion H as [|y l' Hx Hl]; subst. specialize (IH Hl). lia.
Qed.

(** ** Maxima and minima folded over readings *)

Lemma std_max_not_nan (a b : float) :
  is_nan a = false -> is_nan (std_max a b) = false.
Proof.
  intros Ha. unfold std_max. destruct (ltb a b) eqn:H; [ | exact Ha ].
  now apply ltb_true_not_nan in H.
Qed.

Lemma std_min_not_nan (a b : float) :
  is_nan a = false -> is_nan (std_min a b) = false.
Proof.
  intros Ha. unfold std_min. destruct (ltb b a) eqn:H; [ | exact Ha ].
  now apply ltb_true_not_nan in H.
Qed.

Lemma highest_not_nan (l : list float) : forall seed,
  is_nan seed = false -> is_nan (highest seed l) = false.
Proof.
  unfold highest. induction l as [|x l IH]; intros seed H; simpl;
    [ exact H | ].
  apply IH. now apply std_max_not_nan.
Qed.

Lemma lowest_not_nan (l : list float) : forall seed,
  is_nan seed = false -> is_nan (lowest seed l) = false.
Proof.
  unfold lowest. induction l as [|x l IH]; intros seed H; simpl;
    [ exact H | ].
  apply IH. now apply std_min_not_nan.
Qed.

Lemma highest_seed_or_in (l : list float) : forall seed,
  highest seed l = seed \/ In (highest seed l) l.
Proof.
  unfold highest. induction l as [|x l IH]; intros seed; simpl;
    [ now left | ].
  destruct (IH (std_max seed x)) as [E | H]; [ | now right; right ].
  rewrite E. unfold std_max. destruct (ltb seed x); auto.
Qed.

Lemma lowest_seed_or_in (l : list float) : forall seed,
  lowest seed l = seed \/ In (lowest seed l) l.
Proof.
  unfold lowest. induction l as [|x l IH]; intros seed; simpl;
    [ now left | ].
  destruct (IH (std_min seed x)) as [E | H]; [ | now right; right ].
  rewrite E. unfold std_min. destruct (ltb x seed); auto.
Qed.

Lemma highest_upper (l : list float) : forall seed x,
  is_nan seed = false -> In x l -> is_nan x = false ->
  leb x (highest seed l) = true.
Proof.
  induction l as [|y l IH]; intros seed x Hs Hin Hx; [ contradiction | ].
  change (highest seed (y :: l)) with (highest (std_max seed y) l).
  destruct Hin as [-> | Hin].
  - apply highest_lower_bound. unfold std_max.
    destruct (ltb seed x) eqn:H.
    + now apply leb_refl.
    + now apply leb_total.
  - apply IH; [ now apply std_max_not_nan | exact Hin | exact Hx ].
Qed.

Lemma lowest_lower (l : list float) : forall seed x,
  is_nan seed = false -> In x l -> is_nan x = false ->
  leb (lowest seed l) x = true.
Proof.
  induction l as [|y l IH]; intros seed x Hs Hin Hx; [ contradiction | ].
  change (lowest seed (y :: l)) with (lowest (std_min seed y) l).
  destruct Hin as [-> | Hin].
  - apply lowest_upper_bound. unfold std_min.
    destruct (ltb x seed) eqn:H.
    + now apply leb_refl.
    + now apply leb_total.
  - apply IH; [ now apply std_min_not_nan | exact Hin | exact Hx ].
Qed.

(** The minimum over all the joints is at most the minimum over some of
    them, from seeds in that order. *)
Lemma lowest_all_le_lowest_some (p : JointReading -> bool)
    (rs : list JointReading) : forall a b,
  leb a b = true ->
  leb (lowest a (map r_stiffness rs))
      (lowest b (map r_stiffness (filter p rs))) = true.
Proof.
  induction rs as [|r rs IH]; intros a b Hab; [ exact Hab | ].
  destruct (leb_true_not_nan _ _ Hab) as [Ha Hb].
  simpl map at 1.
  change (lowest a (r_stiffness r :: map r_stiffness rs))
    with (lowest (std_min a (r_stiffness r)) (map r_stiffness rs)).
  assert (leb (std_min a (r_stiffness r)) a = true) as Hdown.
  { unfold std_min. destruct (ltb (r_stiffness r) a) eqn:H.
    - now apply ltb_leb.
    - now apply leb_refl. }
  simpl filter. destruct (p r).
  - simpl map.
    change (lowest b (r_stiffness r :: map r_stiffness (filter p rs)))
      with (lowest (std_min b (r_stiffness r))
                   (map r_stiffness (filter p rs))).
    apply IH. unfold std_min.
    destruct (ltb (r_stiffness r) a) eqn:H1;
      destruct (ltb (r_stiffness r) b) eqn:H2.
    + apply leb_refl. now apply ltb_true_not_nan in H1.
    + exact (ltb_leb_trans _ _ _ H1 Hab).
    + apply leb_total;
        [ now apply ltb_true_not_nan in H2 | exact Ha | exact H1 ].
    + exact Hab.
  - apply IH. exact (leb_trans _ _ _ Hdown Hab).
Qed.

(** ** A completed cycle, in terms of its readings *)

Lemma readings_positions names vals q :
  In q (joint_readings names vals) ->
  exists i,
    nth_error (joint_readings names vals) i = Some q /\
    nth_error names i = Some (r_joint q) /\
    nth_error vals (3 * i) = Some (r_temperature q) /\
    nth_error vals (3 * i + 1) = Some (r_stiffness q) /\
    nth_error vals (3 * i + 2) = Some (r_current q).
Proof.
  intros Hin. apply In_nth_error in Hin. destruct Hin as [i Hi].
  exists i. split; [ exact Hi | ]. exact (joint_readings_nth _ _ _ _ Hi).
Qed.

Lemma records_levels_range self rs :
  Forall (fun x => x = OK \/ x = WARN \/ x = ERROR)
         (map level (map (status_of_reading self) rs)).
Proof.
  apply Forall_forall. intros x Hx.
  apply in_map_iff in Hx. destruct Hx as (r & <- & Hr).
  apply in_map_iff in Hr. destruct Hr as (q & <- & _).
  apply joint_status_level_range.
Qed.

Section Cycle_summary.

Variable AnyValue : Type.
Variable fromAnyValueToFloatVector : AnyValue -> option (list float).
Variable show_float : float -> string.

Lemma cycle_summary self now getListData pub vals res :
  bulk_read fromAnyValueToFloatVector getListData (keys_tocheck_ self)
  = Some vals ->
  publish fromAnyValueToFloatVector show_float self now getListData pub
  = Normal res ->
  let rs := joint_readings (joints_all_names_ self) vals in
  let st := after_readings show_float self rs in
  let recs := map (status_of_reading self) rs in
  map r_joint rs = joints_all_names_ self /\
  msg_status st = recs /\
  max_level st = max_severity (map level recs) /\
  level (status_ (this st)) = max_severity (map level recs) /\
  res = {| returned :=
             if max_severity (map level recs) >=? ERROR then false else true;
           object := this st;
           channel :=
             (pub ++ [ {| stamp := now;
                          status :=
                            (recs ++ [aggregated_status st])%list |} ])%list
        |}.
Proof.
  intros Hread Hpub.
  destruct (publish_completed _ _ _ _ _ _ _ _ _ Hread Hpub) as [Hnames ->].
  destruct (after_readings_levels show_float self
              (joint_readings (joints_all_names_ self) vals))
    as (Hmsg & Hmax & Hlvl).
  change (status_of_reading (reset_status self))
    with (status_of_reading self) in Hmsg.
  simpl. rewrite Hmsg in Hmax, Hlvl |- *.
  split; [ exact Hnames | ]. split; [ reflexivity | ].
  split; [ exact Hmax | ]. split; [ exact Hlvl | ].
  rewrite Hlvl. reflexivity.
Qed.

End Cycle_summary.

(** ** Properties of a cycle *)

(** X7: a joint that is at least as hot as another gets a level that is at
    least as high, whatever the two thresholds: the two tests are on the
    temperature only and in the order warn, error. *)
Theorem hotter_joint_not_lower self it it' t t' s s' c c' :
  leb t t' = true ->
  level (joint_status self it t s c) <= level (joint_status self it' t' s' c').
Proof.
  intros Hle. rewrite !joint_status_level. unfold OK, WARN, ERROR.
  destruct (ltb t' (temperature_warn_level_ self)) eqn:H1.
  - rewrite (leb_ltb_strict _ _ _ Hle H1). lia.
  - destruct (ltb t' (temperature_error_level_ self)) eqn:H2.
    + rewrite (leb_ltb_strict _ _ _ Hle H2).
      destruct (ltb t (temperature_warn_level_ self)); lia.
    + destruct (ltb t (temperature_warn_level_ self));
        [ | destruct (ltb t (temperature_error_level_ self)) ]; lia.
Qed.

Section Further.

Variable AnyValue : Type.
Variable fromAnyValueToFloatVector : AnyValue -> option (list float).
Variable show_float : float -> string.

(** X10: a completed cycle returns true exactly when the temperature of
    every joint is below the warn level or below the error level. *)
Theorem healthy_return_iff self now getListData pub vals res :
  bulk_read fromAnyValueToFloatVector getListData (keys_tocheck_ self)
  = Some vals ->
  publish fromAnyValueToFloatVector show_float self now getListData pub
  = Normal res ->
  (returned res = true <->
   forall i it t,
     nth_error (joints_all_names_ self) i = Some it ->
     nth_error vals (3 * i) = Some t ->
     below_a_level self t = true).
Proof.
  intros Hread Hpub.
  destruct (cycle_summary _ _ _ _ _ _ _ _ _ Hread Hpub)
    as (Hnames & _ & _ & _ & ->).
  set (rs := joint_readings (joints_all_names_ self) vals) in *.
  cbn [returned].
  assert ((if max_severity (map level (map (status_of_reading self) rs))
              >=? ERROR then false else true) = true
          <-> max_severity (map level (map (status_of_reading self) rs))
              < ERROR) as ->.
  { destruct (Z.geb_spec
                (max_severity (map level (map (status_of_reading self) rs)))
                ERROR); split; (congruence || lia). }
  rewrite max_severity_below by reflexivity.
  rewrite Forall_forall. split.
  - intros Hall i it t Hi Ht.
    destruct (records_positional self vals Hnames i it Hi)
      as (t' & s & c & Ht' & _ & _ & Hr).
    assert (t' = t) as -> by congruence.
    apply (level_below_ERROR_iff self it t s c).
    apply Hall. apply in_map.
    change (joint_status self it t s c)
      with (status_of_reading self (mkReading it t s c)).
    apply in_map. exact (nth_error_In _ _ Hr).
  - intros Hall x Hx.
    apply in_map_iff in Hx. destruct Hx as (r & <- & Hr).
    apply in_map_iff in Hr. destruct Hr as (q & <- & Hq).
    destruct (readings_positions _ _ _ Hq) as (i & _ & Hi & Ht & _).
    apply level_below_ERROR_iff. exact (Hall i _ _ Hi Ht).
Qed.

(** X3: a temperature that is not a number puts its joint at ERROR with the
    message of a high temperature; the aggregated record and the running
    status are at ERROR and the cycle returns false. *)
Theorem nan_temperature_is_error self now getListData pub vals res i it t :
  bulk_read fromAnyValueToFloatVector getListData (keys_tocheck_ self)
  = Some vals ->
  publish fromAnyValueToFloatVector show_float self now getListData pub
  = Normal res ->
  nth_error (joints_all_names_ self) i = Some it ->
  nth_error vals (3 * i) = Some t ->
  is_nan t = true ->
  returned res = false /\
  level (status_ (object res)) = ERROR /\
  exists recs agg r,
    channel res
    = (pub ++ [ {| stamp := now;
                   status := (recs ++ [agg])%list |} ])%list /\
    level agg = ERROR /\
    nth_error recs i = Some r /\
    level r = ERROR /\
    message r = "HIGH JOINT TEMPERATURE : " ++ it.
Proof.
  intros Hread Hpub Hi Ht Hnan.
  destruct t; try discriminate Hnan.
  destruct (cycle_summary _ _ _ _ _ _ _ _ _ Hread Hpub)
    as (Hnames & _ & Hmax & Hlvl & ->).
  set (rs := joint_readings (joints_all_names_ self) vals) in *.
  set (recs := map (status_of_reading self) rs) in *.
  destruct (records_positional self vals Hnames i it Hi)
    as (t' & s & c & Ht' & _ & _ & Hr).
  assert (t' = S754_nan) as -> by congruence.
  fold rs in Hr.
  assert (nth_error recs i = Some (joint_status self it S754_nan s c)) as Hrec.
  { unfold recs. rewrite nth_error_map, Hr. reflexivity. }
  assert (max_severity (map level recs) = ERROR) as HE.
  { pose proof (max_severity_upper (map level recs) ERROR) as Hup.
    destruct (max_severity_range (map level recs)
                (records_levels_range self rs)) as [E|[E|E]];
      [ | | exact E ]; exfalso;
      assert (ERROR <= max_severity (map level recs)) as Hge
        by (apply Hup; rewrite <- (nan_reading_is_error self it s c);
            apply in_map; exact (nth_error_In _ _ Hrec));
      rewrite E in Hge; unfold OK, WARN, ERROR in Hge; lia. }
  cbn [returned object channel]. rewrite Hlvl, HE.
  split; [ reflexivity | ]. split; [ reflexivity | ].
  exists recs, (aggregated_status (after_readings show_float self rs)),
         (joint_status self it S754_nan s c).
  split; [ reflexivity | ].
  rewrite aggregated_status_spec. cbn [level]. rewrite Hmax.
  split; [ exact HE | ]. split; [ exact Hrec | ].
  split; [ apply nan_reading_is_error | ].
  apply (joint_status_message_by_level self it S754_nan s c).
  apply nan_reading_is_error.
Qed.

(** X2: every record of a published message, and the running status left by
    a cycle, has level OK, WARN or ERROR (never STALE), and the message of
    the aggregated record is "OK", "WARN" or "ERROR". *)
Theorem published_levels_in_range self now getListData pub vals res :
  bulk_read fromAnyValueToFloatVector getListData (keys_tocheck_ self)
  = Some vals ->
  publish fromAnyValueToFloatVector show_float self now getListData pub
  = Normal res ->
  let known := fun l => l = OK \/ l = WARN \/ l = ERROR in
  known (level (status_ (object res))) /\
  exists recs agg,
    channel res
    = (pub ++ [ {| stamp := now;
                   status := (recs ++ [agg])%list |} ])%list /\
    Forall (fun r => known (level r)) (recs ++ [agg]) /\
    (message agg = "OK" \/ message agg = "WARN" \/ message agg = "ERROR").
Proof.
  intros Hread Hpub known.
  destruct (cycle_summary _ _ _ _ _ _ _ _ _ Hread Hpub)
    as (_ & _ & Hmax & Hlvl & ->).
  set (rs := joint_readings (joints_all_names_ self) vals) in *.
  set (recs := map (status_of_reading self) rs) in *.
  pose proof (max_severity_range (map level recs)
                (records_levels_range self rs)) as Hrange.
  cbn [object channel]. rewrite Hlvl. split; [ exact Hrange | ].
  exists recs, (aggregated_status (after_readings show_float self rs)).
  split; [ reflexivity | ].
  rewrite aggregated_status_spec, Hmax. split.
  - apply Forall_app. split.
    + apply Forall_forall. intros r Hr.
      apply in_map_iff in Hr. destruct Hr as (q & <- & _).
      apply joint_status_level_range.
    + constructor; [ exact Hrange | constructor ].
  - cbn [message].
    destruct Hrange as [E|[E|E]]; rewrite E; auto.
Qed.

(** *** The statistics of the aggregated record *)

Lemma aggregate_lookups st :
  let kvs := values (aggregated_status st) in
  lookup "Highest Temperature" kvs = Some (VFloat (maxTemperature st)) /\
  lookup "Highest Stiffness" kvs = Some (VFloat (maxStiffness st)) /\
  lookup "Lowest Stiffness" kvs = Some (VFloat (minStiffness st)) /\
  lookup "Lowest Stiffness without Hands" kvs
  = Some (VFloat (minStiffnessWoHands st)) /\
  lookup "Highest Electric Current" kvs = Some (VFloat (maxCurrent st)) /\
  lookup "Lowest Electric current" kvs = Some (VFloat (minCurrent st)) /\
  lookup "Hot Joints" kvs = Some (VText (hotJointsSS st)).
Proof. rewrite aggregated_status_spec. repeat split. Qed.

Lemma cycle_statistics self rs :
  let st := after_readings show_float self rs in
  maxTemperature st = highest (of_Z 0) (map r_temperature rs) /\
  maxStiffness st = highest (of_Z 0) (map r_stiffness rs) /\
  minStiffness st = lowest (of_Z 1) (map r_stiffness rs) /\
  minStiffnessWoHands st
  = lowest (of_Z 1) (map r_stiffness (filter without_hands rs)) /\
  maxCurrent st = highest (of_Z 0) (map r_current rs) /\
  minCurrent st = lowest (of_Z 10) (map r_current rs).
Proof.
  exact (fold_statistics show_float rs (loop_start (reset_status self))).
Qed.

(** X5: in the aggregated record of a completed cycle each maximum is at
    least every reading of its kind that is a number, and each minimum at
    most; for the minimum without hands this holds for the joints whose
    name has no "Hand" in it. Readings that are not numbers are passed
    over. *)
Theorem statistics_bound_the_readings self now getListData pub vals res :
  bulk_read fromAnyValueToFloatVector getListData (keys_tocheck_ self)
  = Some vals ->
  publish fromAnyValueToFloatVector show_float self now getListData pub
  = Normal res ->
  exists recs agg maxT maxS minS minSWH maxC minC,
    channel res
    = (pub ++ [ {| stamp := now;
                   status := (recs ++ [agg])%list |} ])%list /\
    lookup "Highest Temperature" (values agg) = Some (VFloat maxT) /\
    lookup "Highest Stiffness" (values agg) = Some (VFloat maxS) /\
    lookup "Lowest Stiffness" (values agg) = Some (VFloat minS) /\
    lookup "Lowest Stiffness without Hands" (values agg)
    = Some (VFloat minSWH) /\
    lookup "Highest Electric Current" (values agg) = Some (VFloat maxC) /\
    lookup "Lowest Electric current" (values agg) = Some (VFloat minC) /\
    forall i it t s c,
      nth_error (joints_all_names_ self) i = Some it ->
      nth_error vals (3 * i) = Some t ->
      nth_error vals (3 * i + 1) = Some s ->
      nth_error vals (3 * i + 2) = Some c ->
      (is_nan t = false -> leb t maxT = true) /\
      (is_nan s = false -> leb s maxS = true /\ leb minS s = true) /\
      (is_nan s = false -> find "Hand" it = None -> leb minSWH s = true) /\
      (is_nan c = false -> leb c maxC = true /\ leb minC c = true).
Proof.
  intros Hread Hpub.
  destruct (cycle_summary _ _ _ _ _ _ _ _ _ Hread Hpub)
    as (Hnames & _ & _ & _ & ->).
  set (rs := joint_readings (joints_all_names_ self) vals) in *.
  set (st := after_readings show_float self rs) in *.
  destruct (aggregate_lookups st) as (L1 & L2 & L3 & L4 & L5 & L6 & _).
  destruct (cycle_statistics self rs) as (S1 & S2 & S3 & S4 & S5 & S6).
  fold st in S1, S2, S3, S4, S5, S6.
  exists (map (status_of_reading self) rs), (aggregated_status st),
    (maxTemperature st), (maxStiffness st), (minStiffness st),
    (minStiffnessWoHands st), (maxCurrent st), (minCurrent st).
  split; [ reflexivity | ].
  do 6 (split; [ assumption | ]).
  intros i it t s c Hi Ht Hs Hc.
  destruct (records_positional self vals Hnames i it Hi)
    as (t' & s' & c' & Ht' & Hs' & Hc' & Hr).
  assert (t' = t) as -> by congruence.
  assert (s' = s) as -> by congruence.
  assert (c' = c) as -> by congruence.
  fold rs in Hr. apply nth_error_In in Hr.
  rewrite S1, S2, S3, S4, S5, S6.
  split; [ | split; [ | split ] ].
  - intros Hn. apply highest_upper; [ reflexivity | | exact Hn ].
    exact (in_map r_temperature _ _ Hr).
  - intros Hn. split.
    + apply highest_upper; [ reflexivity | | exact Hn ].
      exact (in_map r_stiffness _ _ Hr).
    + apply lowest_lower; [ reflexivity | | exact Hn ].
      exact (in_map r_stiffness _ _ Hr).
  - intros Hn Hfind. apply lowest_lower; [ reflexivity | | exact Hn ].
    apply (in_map r_stiffness _ (mkReading it t s c)).
    apply filter_In. split; [ exact Hr | ].
    unfold without_hands. simpl. now rewrite Hfind.
  - intros Hn. split.
    + apply highest_upper; [ reflexivity | | exact Hn ].
      exact (in_map r_current _ _ Hr).
    + apply lowest_lower; [ reflexivity | | exact Hn ].
      exact (in_map r_current _ _ Hr).
Qed.

(** X4: no statistic of the aggregated record is ever not a number, and
    each one is its seed or the reading of a joint: a temperature for the
    highest temperature, a stiffness for the three about stiffness (of a
    joint without "Hand" in its name for the one without hands), a current
    for the two about current. *)
Theorem statistics_are_seeds_or_readings self now getListData pub vals res :
  bulk_read fromAnyValueToFloatVector getListData (keys_tocheck_ self)
  = Some vals ->
  publish fromAnyValueToFloatVector show_float self now getListData pub
  = Normal res ->
  let reading_of := fun (k : nat) (hands : bool) (x : float) =>
    exists i it,
      nth_error (joints_all_names_ self) i = Some it /\
      nth_error vals (3 * i + k) = Some x /\
      (hands = false -> find "Hand" it = None) in
  exists recs agg maxT maxS minS minSWH maxC minC,
    channel res
    = (pub ++ [ {| stamp := now;
                   status := (recs ++ [agg])%list |} ])%list /\
    lookup "Highest Temperature" (values agg) = Some (VFloat maxT) /\
    lookup "Highest Stiffness" (values agg) = Some (VFloat maxS) /\
    lookup "Lowest Stiffness" (values agg) = Some (VFloat minS) /\
    lookup "Lowest Stiffness without Hands" (values agg)
    = Some (VFloat minSWH) /\
    lookup "Highest Electric Current" (values agg) = Some (VFloat maxC) /\
    lookup "Lowest Electric current" (values agg) = Some (VFloat minC) /\
    (is_nan maxT = false /\ (maxT = of_Z 0 \/ reading_of 0%nat true maxT)) /\
    (is_nan maxS = false /\ (maxS = of_Z 0 \/ reading_of 1%nat true maxS)) /\
    (is_nan minS = false /\ (minS = of_Z 1 \/ reading_of 1%nat true minS)) /\
    (is_nan minSWH = false /\
     (minSWH = of_Z 1 \/ reading_of 1%nat false minSWH)) /\
    (is_nan maxC = false /\ (maxC = of_Z 0 \/ reading_of 2%nat true maxC)) /\
    (is_nan minC = false /\ (minC = of_Z 10 \/ reading_of 2%nat true minC)).
Proof.
  intros Hread Hpub reading_of.
  destruct (cycle_summary _ _ _ _ _ _ _ _ _ Hread Hpub)
    as (Hnames & _ & _ & _ & ->).
  set (rs := joint_readings (joints_all_names_ self) vals) in *.
  set (st := after_readings show_float self rs) in *.
  destruct (aggregate_lookups st) as (L1 & L2 & L3 & L4 & L5 & L6 & _).
  destruct (cycle_statistics self rs) as (S1 & S2 & S3 & S4 & S5 & S6).
  fold st in S1, S2, S3, S4, S5, S6.
  exists (map (status_of_reading self) rs), (aggregated_status st),
    (maxTemperature st), (maxStiffness st), (minStiffness st),
    (minStiffnessWoHands st), (maxCurrent st), (minCurrent st).
  split; [ reflexivity | ].
  do 6 (split; [ assumption | ]).
  assert (forall q, In q rs -> reading_of 0%nat true (r_temperature q) /\
                               reading_of 1%nat true (r_stiffness q) /\
                               reading_of 2%nat true (r_current q) /\
                               (without_hands q = true ->
                                reading_of 1%nat false (r_stiffness q)))
    as Hpos.
  { intros q Hq.
    destruct (readings_positions _ _ _ Hq) as (i & _ & Hi & Ht & Hs & Hc).
    unfold reading_of. repeat split.
    - exists i, (r_joint q). rewrite Nat.add_0_r. now repeat split.
    - exists i, (r_joint q). now repeat split.
    - exists i, (r_joint q). now repeat split.
    - intros Hw. exists i, (r_joint q).
      split; [ exact Hi | ]. split; [ exact Hs | ]. intros _.
      unfold without_hands in Hw.
      destruct (find "Hand" (r_joint q)); [ discriminate | reflexivity ]. }
  rewrite S1, S2, S3, S4, S5, S6.
  repeat split;
    try (apply highest_not_nan; reflexivity);
    try (apply lowest_not_nan; reflexivity).
  - destruct (highest_seed_or_in (map r_temperature rs) (of_Z 0))
      as [E | Hin]; [ now left | right ].
    apply in_map_iff in Hin. destruct Hin as (q & <- & Hq).
    apply (Hpos q Hq).
  - destruct (highest_seed_or_in (map r_stiffness rs) (of_Z 0))
      as [E | Hin]; [ now left | right ].
    apply in_map_iff in Hin. destruct Hin as (q & <- & Hq).
    apply (Hpos q Hq).
  - destruct (lowest_seed_or_in (map r_stiffness rs) (of_Z 1))
      as [E | Hin]; [ now left | right ].
    apply in_map_iff in Hin. destruct Hin as (q & <- & Hq).
    apply (Hpos q Hq).
  - destruct (lowest_seed_or_in (map r_stiffness (filter without_hands rs))
                (of_Z 1)) as [E | Hin]; [ now left | right ].
    apply in_map_iff in Hin. destruct Hin as (q & <- & Hq).
    apply filter_In in Hq. destruct Hq as [Hq Hw].
    now apply (Hpos q Hq).
  - destruct (highest_seed_or_in (map r_current rs) (of_Z 0))
      as [E | Hin]; [ now left | right ].
    apply in_map_iff in Hin. destruct Hin as (q & <- & Hq).
    apply (Hpos q Hq).
  - destruct (lowest_seed_or_in (map r_current rs) (of_Z 10))
      as [E | Hin]; [ now left | right ].
    apply in_map_iff in Hin. destruct Hin as (q & <- & Hq).
    apply (Hpos q Hq).
Qed.

(** X6: in the aggregated record of a completed cycle the lowest stiffness
    is at most the lowest stiffness without hands. *)
Theorem lowest_stiffness_le_without_hands self now getListData pub vals res :
  bulk_read fromAnyValueToFloatVector getListData (keys_tocheck_ self)
  = Some vals ->
  publish fromAnyValueToFloatVector show_float self now getListData pub
  = Normal res ->
  exists recs agg minS minSWH,
    channel res
    = (pub ++ [ {| stamp := now;
                   status := (recs ++ [agg])%list |} ])%list /\
    lookup "Lowest Stiffness" (values agg) = Some (VFloat minS) /\
    lookup "Lowest Stiffness without Hands" (values agg)
    = Some (VFloat minSWH) /\
    leb minS minSWH = true.
Proof.
  intros Hread Hpub.
  destruct (cycle_summary _ _ _ _ _ _ _ _ _ Hread Hpub)
    as (_ & _ & _ & _ & ->).
  set (rs := joint_readings (joints_all_names_ self) vals) in *.
  set (st := after_readings show_float self rs) in *.
  destruct (aggregate_lookups st) as (_ & _ & L3 & L4 & _).
  destruct (cycle_statistics self rs) as (_ & _ & S3 & S4 & _).
  fold st in S3, S4.
  exists (map (status_of_reading self) rs), (aggregated_status st),
    (minStiffness st), (minStiffnessWoHands st).
  split; [ reflexivity | ]. split; [ exact L3 | ]. split; [ exact L4 | ].
  rewrite S3, S4. now apply lowest_all_le_lowest_some.
Qed.

(** *** The text of hot joints *)

Lemma str_app_nil_r (a : string) : a ++ "" = a.
Proof. induction a as [|c a IH]; simpl; [ reflexivity | now rewrite IH ]. Qed.

Lemma str_app_assoc (a b c : string) : (a ++ b) ++ c = a ++ b ++ c.
Proof. induction a as [|x a IH]; simpl; [ reflexivity | now rewrite IH ]. Qed.

Lemma is_hot_iff self q :
  is_hot self q = true
  <-> ltb (r_temperature q) (temperature_warn_level_ self) = false.
Proof.
  unfold is_hot, status_of_reading. rewrite joint_status_level.
  destruct (ltb (r_temperature q) (temperature_warn_level_ self));
    [ | destruct (ltb (r_temperature q) (temperature_error_level_ self)) ];
    simpl; split; (reflexivity || discriminate).
Qed.

Lemma hot_lines_setAggregatedMessage self status rs :
  hot_lines show_float (setAggregatedMessage self status) rs
  = hot_lines show_float self rs.
Proof.
  unfold hot_lines. f_equal. apply filter_ext. intros r. unfold is_hot.
  now rewrite status_of_reading_setAggregatedMessage.
Qed.

Lemma fold_hotJointsSS rs : forall st,
  hotJointsSS (fold_left (update_of_reading show_float) rs st)
  = hotJointsSS st ++ hot_lines show_float (this st) rs.
Proof.
  induction rs as [|r rs IH]; intros st.
  - simpl. unfold hot_lines. simpl. now rewrite str_app_nil_r.
  - cbn [fold_left]. rewrite IH.
    unfold update_of_reading, loop_update.
    cbn [this hotJointsSS].
    rewrite hot_lines_setAggregatedMessage.
    unfold hot_lines at 2. cbn [filter]. unfold is_hot at 1.
    unfold status_of_reading at 1.
    destruct (level (joint_status (this st) (r_joint r) (r_temperature r)
                       (r_stiffness r) (r_current r)) >=? WARN).
    + cbn [fold_right]. fold (hot_lines show_float (this st) rs).
      unfold hot_line. now rewrite !str_app_assoc.
    + reflexivity.
Qed.

Lemma hot_lines_empty_iff self rs :
  hot_lines show_float self rs = ""
  <-> max_severity (map level (map (status_of_reading self) rs)) = OK.
Proof.
  assert (hot_lines show_float self rs = ""
          <-> Forall (fun x => x < WARN)
                     (map level (map (status_of_reading self) rs))) as ->.
  { unfold hot_lines. induction rs as [|r rs IH]; cbn [filter map].
    - split; [ constructor | reflexivity ].
    - unfold is_hot at 1.
      destruct (Z.geb_spec (level (status_of_reading self r)) WARN)
        as [Hge|Hlt].
      + cbn [fold_right]. unfold hot_line, endl. simpl. split.
        * discriminate.
        * intros H. inversion H; subst. lia.
      + rewrite IH. split.
        * intros H. now constructor.
        * intros H. now inversion H. }
  rewrite <- max_severity_below by reflexivity.
  destruct (max_severity_range _ (records_levels_range self rs))
    as [E|[E|E]]; rewrite E; unfold OK, WARN, ERROR; split;
    intros H; (reflexivity || lia || discriminate).
Qed.

(** X1: the text under "Hot Joints" of a completed cycle is made of one
    line for each joint whose temperature is not below the warn level, in
    the order of the joints: a line feed, the name, ": ", the temperature
    and "°C". The text is empty exactly when the aggregated record is at
    OK. *)
Theorem hot_joints_text self now getListData pub vals res :
  bulk_read fromAnyValueToFloatVector getListData (keys_tocheck_ self)
  = Some vals ->
  publish fromAnyValueToFloatVector show_float self now getListData pub
  = Normal res ->
  let rs := joint_readings (joints_all_names_ self) vals in
  exists recs agg,
    channel res
    = (pub ++ [ {| stamp := now;
                   status := (recs ++ [agg])%list |} ])%list /\
    lookup "Hot Joints" (values agg)
    = Some (VText (hot_lines show_float self rs)) /\
    (forall q,
        is_hot self q = true
        <-> ltb (r_temperature q) (temperature_warn_level_ self) = false) /\
    (hot_lines show_float self rs = "" <-> level agg = OK).
Proof.
  intros Hread Hpub rs.
  destruct (cycle_summary _ _ _ _ _ _ _ _ _ Hread Hpub)
    as (_ & _ & Hmax & _ & ->).
  fold rs in Hmax |- *.
  set (st := after_readings show_float self rs) in *.
  destruct (aggregate_lookups st) as (_ & _ & _ & _ & _ & _ & L7).
  exists (map (status_of_reading self) rs), (aggregated_status st).
  split; [ reflexivity | ]. split.
  - rewrite L7. do 2 f_equal. unfold st, after_readings.
    rewrite fold_hotJointsSS. reflexivity.
  - split; [ apply is_hot_iff | ].
    rewrite aggregated_status_spec. cbn [level]. rewrite Hmax.
    apply hot_lines_empty_iff.
Qed.

(** *** What a cycle leaves untouched *)

Lemma setAggregatedMessage_status_frame self status :
  let st' := status_ (setAggregatedMessage self status) in
  name st' = name (status_ self) /\
  hardware_id st' = hardware_id (status_ self) /\
  values st' = values (status_ self).
Proof.
  unfold setAggregatedMessage.
  destruct (level status >? level (status_ self)); simpl; auto.
Qed.

Lemma fold_status_frame rs : forall st,
  let st' := status_ (this (fold_left (update_of_reading show_float) rs st)) in
  name st' = name (status_ (this st)) /\
  hardware_id st' = hardware_id (status_ (this st)) /\
  values st' = values (status_ (this st)).
Proof.
  induction rs as [|r rs IH]; intros st; simpl; [ now auto | ].
  destruct (IH (update_of_reading show_float st r)) as (H1 & H2 & H3).
  destruct (setAggregatedMessage_status_frame (this st)
              (status_of_reading (this st) r)) as (G1 & G2 & G3).
  unfold update_of_reading, loop_update, status_of_reading in *.
  simpl in *. repeat split; congruence.
Qed.

Lemma publish_frame self now getListData pub res :
  publish fromAnyValueToFloatVector show_float self now getListData pub
  = Normal res ->
  joints_all_names_ (object res) = joints_all_names_ self /\
  temperature_warn_level_ (object res) = temperature_warn_level_ self /\
  temperature_error_level_ (object res) = temperature_error_level_ self /\
  keys_tocheck_ (object res) = keys_tocheck_ self /\
  name (status_ (object res)) = name (status_ self) /\
  hardware_id (status_ (object res)) = hardware_id (status_ self) /\
  values (status_ (object res)) = values (status_ self).
Proof.
  intros Hpub.
  destruct (bulk_read fromAnyValueToFloatVector getListData
              (keys_tocheck_ self)) as [vals|] eqn:Hread.
  - destruct (cycle_summary _ _ _ _ _ _ _ _ _ Hread Hpub)
      as (_ & _ & _ & _ & ->).
    cbn [object]. unfold after_readings.
    destruct (fold_this_members show_float
                (joint_readings (joints_all_names_ self) vals)
                (loop_start (reset_status self))) as (A1 & A2 & A3 & A4).
    destruct (fold_status_frame
                (joint_readings (joints_all_names_ self) vals)
                (loop_start (reset_status self))) as (B1 & B2 & B3).
    repeat split; assumption.
  - rewrite (publish_failed _ _ _ _ _ _ _ Hread) in Hpub.
    injection Hpub as <-. repeat split.
Qed.

Lemma publish_via_reset a b now getListData pub :
  reset_status a = reset_status b ->
  publish fromAnyValueToFloatVector show_float a now getListData pub
  = publish fromAnyValueToFloatVector show_float b now getListData pub.
Proof. intros H. unfold publish. now rewrite H. Qed.

(** X8: a cycle, completed or not, changes nothing of the object but the
    level and the message of the running status: the joint names, the two
    thresholds, the keys, and the name, hardware id and values of the status
    stay; and it leaves the messages already on the channel in place, adding
    at most one after them. *)
Theorem publish_touches_only_the_running_status
    self now getListData pub res :
  publish fromAnyValueToFloatVector show_float self now getListData pub
  = Normal res ->
  joints_all_names_ (object res) = joints_all_names_ self /\
  temperature_warn_level_ (object res) = temperature_warn_level_ self /\
  temperature_error_level_ (object res) = temperature_error_level_ self /\
  keys_tocheck_ (object res) = keys_tocheck_ self /\
  name (status_ (object res)) = name (status_ self) /\
  hardware_id (status_ (object res)) = hardware_id (status_ self) /\
  values (status_ (object res)) = values (status_ self) /\
  exists added,
    channel res = (pub ++ added)%list /\ (List.length added <= 1)%nat.
Proof.
  intros Hpub.
  destruct (publish_frame _ _ _ _ _ Hpub) as (F1 & F2 & F3 & F4 & F5 & F6 & F7).
  do 7 (split; [ assumption | ]).
  destruct (bulk_read fromAnyValueToFloatVector getListData
              (keys_tocheck_ self)) as [vals|] eqn:Hread.
  - destruct (cycle_summary _ _ _ _ _ _ _ _ _ Hread Hpub)
      as (_ & _ & _ & _ & ->).
    eexists. split; [ reflexivity | ]. simpl. lia.
  - rewrite (publish_failed _ _ _ _ _ _ _ Hread) in Hpub.
    injection Hpub as <-. exists []. simpl.
    split; [ now rewrite app_nil_r | lia ].
Qed.

(** X9: cycles do not depend on one another: the object left by a cycle
    behaves in the next call of [publish] as the object did before the
    cycle, so a level or a message of an earlier cycle never shows in a
    later one. *)
Theorem cycles_are_independent self now getListData pub res :
  publish fromAnyValueToFloatVector show_float self now getListData pub
  = Normal res ->
  forall now' getListData' pub',
    publish fromAnyValueToFloatVector show_float (object res) now'
            getListData' pub'
    = publish fromAnyValueToFloatVector show_float self now'
              getListData' pub'.
Proof.
  intros Hpub now' getListData' pub'.
  apply publish_via_reset.
  destruct (publish_frame _ _ _ _ _ Hpub) as (F1 & F2 & F3 & F4 & F5 & F6 & F7).
  unfold reset_status, set_status_, set_message, set_level. simpl.
  now rewrite F1, F2, F3, F4, F5, F6, F7.
Qed.

(** *** The joint named by the running status *)

Lemma find_first {A : Type} (f : A -> bool) (l : list A) : forall x,
  List.find f l = Some x ->
  exists i,
    nth_error l i = Some x /\ f x = true /\
    forall j y, (j < i)%nat -> nth_error l j = Some y -> f y = false.
Proof.
  induction l as [|a l IH]; intros x H; simpl in H; [ discriminate | ].
  destruct (f a) eqn:Hfa.
  - injection H as <-. exists 0%nat. repeat split; [ exact Hfa | ].
    intros j y Hj. lia.
  - destruct (IH x H) as (i & Hi & Hfx & Hbefore).
    exists (S i). repeat split; [ exact Hi | exact Hfx | ].
    intros [|j] y Hj Hy; simpl in Hy.
    + now injection Hy as <-.
    + apply (Hbefore j y); [ lia | exact Hy ].
Qed.

(** X11: when a completed cycle returns false, [getStatusMsg] names the
    first joint, in the order of the joints, whose temperature is neither
    below the warn level nor below the error level. *)
Theorem unhealthy_return_names_first_joint self now getListData pub vals res :
  bulk_read fromAnyValueToFloatVector getListData (keys_tocheck_ self)
  = Some vals ->
  publish fromAnyValueToFloatVector show_float self now getListData pub
  = Normal res ->
  returned res = false ->
  exists i it t,
    nth_error (joints_all_names_ self) i = Some it /\
    nth_error vals (3 * i) = Some t /\
    below_a_level self t = false /\
    (forall j it' t',
        (j < i)%nat ->
        nth_error (joints_all_names_ self) j = Some it' ->
        nth_error vals (3 * j) = Some t' ->
        below_a_level self t' = true) /\
    getStatusMsg (object res) = "HIGH JOINT TEMPERATURE : " ++ it.
Proof.
  intros Hread Hpub Hret.
  destruct (cycle_summary _ _ _ _ _ _ _ _ _ Hread Hpub)
    as (Hnames & _ & _ & _ & ->).
  set (rs := joint_readings (joints_all_names_ self) vals) in *.
  set (recs := map (status_of_reading self) rs) in *.
  cbn [returned object] in *.
  assert (max_severity (map level recs) = ERROR) as HE.
  { destruct (Z.geb_spec (max_severity (map level recs)) ERROR) as [Hge|];
      [ | discriminate ].
    destruct (max_severity_range _ (records_levels_range self rs))
      as [E|[E|E]]; fold recs in E; [ | | exact E ];
      rewrite E in Hge; unfold OK, WARN, ERROR in Hge; lia. }
  unfold getStatusMsg. rewrite after_readings_message.
  fold recs. unfold first_worst. rewrite HE.
  destruct (List.find (fun r => level r =? ERROR) recs) as [r|] eqn:Hfind.
  - destruct (find_first _ _ _ Hfind) as (i & Hi & Hlv & Hbefore).
    apply Z.eqb_eq in Hlv.
    unfold recs in Hi. rewrite nth_error_map in Hi.
    destruct (nth_error rs i) as [q|] eqn:Hq; [ | discriminate ].
    injection Hi as <-.
    destruct (joint_readings_nth _ _ _ _ Hq) as (Hj & Ht & _ & _).
    exists i, (r_joint q), (r_temperature q).
    split; [ exact Hj | ]. split; [ exact Ht | ]. split.
    { now apply (level_ERROR_iff self (r_joint q) (r_temperature q)
                   (r_stiffness q) (r_current q)). }
    split.
    + intros j it' t' Hji Hj' Ht'.
      destruct (records_positional self vals Hnames j it' Hj')
        as (t'' & s & c & Ht'' & _ & _ & Hr).
      assert (t'' = t') as -> by congruence.
      fold rs in Hr.
      assert (nth_error recs j
              = Some (status_of_reading self (mkReading it' t' s c))) as Hrec.
      { unfold recs. rewrite nth_error_map, Hr. reflexivity. }
      specialize (Hbefore j _ Hji Hrec). apply Z.eqb_neq in Hbefore.
      apply (level_below_ERROR_iff self it' t' s c).
      destruct (joint_status_level_range self it' t' s c) as [E|[E|E]];
        unfold status_of_reading in Hbefore; simpl in Hbefore;
        rewrite E in Hbefore |- *; unfold OK, WARN, ERROR in *;
        (lia || congruence).
    + apply (joint_status_message_by_level self (r_joint q) (r_temperature q)
               (r_stiffness q) (r_current q)). exact Hlv.
  - exfalso.
    assert (recs <> []) as Hne.
    { intros Hnil. rewrite Hnil in HE. discriminate HE. }
    assert (In (max_severity (map level recs)) (map level recs)) as Hin.
    { apply max_severity_attained.
      - destruct recs; [ congruence | discriminate ].
      - intros x Hx. apply in_map_iff in Hx. destruct Hx as (r & <- & Hr).
        apply in_map_iff in Hr. destruct Hr as (q & <- & _).
        apply status_of_reading_level_OK. }
    rewrite HE in Hin. apply in_map_iff in Hin.
    destruct Hin as (r & Hr & Hin).
    pose proof (find_none _ _ Hfind r Hin) as Hno. cbv beta in Hno.
    apply Z.eqb_neq in Hno. congruence.
Qed.

(** *** The order of the joints *)

Lemma max_severity_perm (l l' : list Z) :
  Permutation l l' -> max_severity l = max_severity l'.
Proof.
  unfold max_severity. induction 1; simpl; lia.
Qed.

(** X12: the verdict of a cycle does not depend on the order of the joints:
    two completed cycles with the same thresholds whose joints and readings
    are the same up to their order return the same value, leave the same
    running level, and publish aggregated records with the same level and
    message. *)
Theorem joint_order_does_not_matter
    self self' now now' getListData getListData' pub pub' vals vals'
    res res' :
  temperature_warn_level_ self = temperature_warn_level_ self' ->
  temperature_error_level_ self = temperature_error_level_ self' ->
  bulk_read fromAnyValueToFloatVector getListData (keys_tocheck_ self)
  = Some vals ->
  publish fromAnyValueToFloatVector show_float self now getListData pub
  = Normal res ->
  bulk_read fromAnyValueToFloatVector getListData' (keys_tocheck_ self')
  = Some vals' ->
  publish fromAnyValueToFloatVector show_float self' now' getListData' pub'
  = Normal res' ->
  Permutation (joint_readings (joints_all_names_ self) vals)
              (joint_readings (joints_all_names_ self') vals') ->
  returned res = returned res' /\
  level (status_ (object res)) = level (status_ (object res')) /\
  exists recs agg recs' agg',
    channel res
    = (pub ++ [ {| stamp := now;
                   status := (recs ++ [agg])%list |} ])%list /\
    channel res'
    = (pub' ++ [ {| stamp := now';
                    status := (recs' ++ [agg'])%list |} ])%list /\
    level agg = level agg' /\
    message agg = message agg'.
Proof.
  intros HW HE Hread Hpub Hread' Hpub' Hperm.
  destruct (cycle_summary _ _ _ _ _ _ _ _ _ Hread Hpub)
    as (_ & _ & Hmax & Hlvl & ->).
  destruct (cycle_summary _ _ _ _ _ _ _ _ _ Hread' Hpub')
    as (_ & _ & Hmax' & Hlvl' & ->).
  set (rs := joint_readings (joints_all_names_ self) vals) in *.
  set (rs' := joint_readings (joints_all_names_ self') vals') in *.
  assert (max_severity (map level (map (status_of_reading self) rs))
          = max_severity (map level (map (status_of_reading self') rs')))
    as Hsame.
  { apply max_severity_perm. apply Permutation_map.
    replace (map (status_of_reading self) rs)
      with (map (status_of_reading self') rs).
    - now apply Permutation_map.
    - apply map_ext. intros q. unfold status_of_reading.
      symmetry. now apply joint_status_thresholds. }
  cbn [returned object channel]. rewrite Hlvl, Hlvl', Hsame.
  split; [ reflexivity | ]. split; [ reflexivity | ].
  exists (map (status_of_reading self) rs),
         (aggregated_status (after_readings show_float self rs)),
         (map (status_of_reading self') rs'),
         (aggregated_status (after_readings show_float self' rs')).
  split; [ reflexivity | ]. split; [ reflexivity | ].
  rewrite !aggregated_status_spec. cbn [level message].
  rewrite Hmax, Hmax', Hsame. split; reflexivity.
Qed.

(** *** Values after the last joint *)

Lemma for_joints_surplus values extra names : forall st,
  (val st + 3 * List.length names <= List.length values)%nat ->
  for_joints show_float (values ++ extra) names st
  = for_joints show_float values names st.
Proof.
  induction names as [|it rest IH]; intros st Hlen; [ reflexivity | ].
  simpl in Hlen. cbn [for_joints]. unfold loop_body.
  rewrite !nth_error_app1 by lia.
  destruct (nth_error values (val st)) as [t|]; [ | reflexivity ].
  destruct (nth_error values (val st + 1)) as [s|]; [ | reflexivity ].
  destruct (nth_error values (val st + 2)) as [c|]; [ | reflexivity ].
  apply IH. simpl. lia.
Qed.

(** X14: values of the answer after the three of the last joint are never
    read: with at least three values for each joint, a cycle gives the same
    result whatever follows them, and it completes. *)
Theorem surplus_values_are_ignored
    self now getListData getListData' pub vals extra :
  bulk_read fromAnyValueToFloatVector getListData (keys_tocheck_ self)
  = Some vals ->
  bulk_read fromAnyValueToFloatVector getListData' (keys_tocheck_ self)
  = Some (vals ++ extra)%list ->
  (3 * List.length (joints_all_names_ self) <= List.length vals)%nat ->
  publish fromAnyValueToFloatVector show_float self now getListData' pub
  = publish fromAnyValueToFloatVector show_float self now getListData pub /\
  exists res,
    publish fromAnyValueToFloatVector show_float self now getListData pub
    = Normal res.
Proof.
  intros Hread Hread' Hlen.
  split; [ | exact (publish_enough _ _ _ _ _ _ _ _ Hread Hlen) ].
  unfold publish. cbn [keys_tocheck_ reset_status set_status_] in *.
  rewrite Hread, Hread'.
  now rewrite for_joints_surplus.
Qed.

End Further.

(** ** The keys of the constructor tell the joints and the readings apart *)

Lemma str_app_inv_head (p a b : string) : p ++ a = p ++ b -> a = b.
Proof.
  induction p as [|c p IH]; simpl; intros H; [ exact H | ].
  injection H as H. now apply IH.
Qed.

Lemma str_length_app (a b : string) :
  String.length (a ++ b) = (String.length a + String.length b)%nat.
Proof. induction a as [|c a IH]; simpl; [ reflexivity | now rewrite IH ]. Qed.

Lemma str_app_inv_tail (s : string) : forall a b,
  a ++ s = b ++ s -> a = b.
Proof.
  induction a as [|x a IH]; intros [|y b] H; simpl in H.
  - reflexivity.
  - apply (f_equal String.length) in H. simpl in H.
    rewrite str_length_app in H. lia.
  - apply (f_equal String.length) in H. simpl in H.
    rewrite str_length_app in H. lia.
  - injection H as -> H. f_equal. now apply IH.
Qed.

(** Two texts with the same end: one of the two tails ends with the other. *)
Lemma str_app_eq_tails : forall a b x y : string,
  a ++ x = b ++ y ->
  (exists d, x = d ++ y) \/ (exists d, y = d ++ x).
Proof.
  induction a as [|c a IH]; intros b x y H.
  - left. now exists b.
  - destruct b as [|c' b].
    + right. exists (String c a). symmetry. exact H.
    + simpl in H. injection H as _ H. exact (IH b x y H).
Qed.

Ltac tail_mismatch H d :=
  repeat (destruct d as [|? d];
          [ discriminate H | simpl in H; injection H as _ H ]);
  destruct d; discriminate H.

Lemma temperature_key_inj a b :
  temperature_key a = temperature_key b -> a = b.
Proof.
  unfold temperature_key. intros H.
  apply str_app_inv_head in H. now apply str_app_inv_tail in H.
Qed.

Lemma hardness_key_inj a b : hardness_key a = hardness_key b -> a = b.
Proof.
  unfold hardness_key. intros H.
  apply str_app_inv_head in H. now apply str_app_inv_tail in H.
Qed.

Lemma current_key_inj a b : current_key a = current_key b -> a = b.
Proof.
  unfold current_key. intros H.
  apply str_app_inv_head in H. now apply str_app_inv_tail in H.
Qed.

Lemma temperature_key_not_hardness a b : temperature_key a <> hardness_key b.
Proof.
  unfold temperature_key, hardness_key. intros H.
  apply str_app_inv_head in H.
  destruct (str_app_eq_tails _ _ _ _ H) as [[d Hd] | [d Hd]];
    tail_mismatch Hd d.
Qed.

Lemma temperature_key_not_current a b : temperature_key a <> current_key b.
Proof.
  unfold temperature_key, current_key. intros H.
  apply str_app_inv_head in H.
  destruct (str_app_eq_tails _ _ _ _ H) as [[d Hd] | [d Hd]];
    tail_mismatch Hd d.
Qed.

Lemma hardness_key_not_current a b : hardness_key a <> current_key b.
Proof.
  unfold hardness_key, current_key. intros H.
  apply str_app_inv_head in H.
  destruct (str_app_eq_tails _ _ _ _ H) as [[d Hd] | [d Hd]];
    tail_mismatch Hd d.
Qed.

Lemma keys_of_same_joint a b k :
  In k (keys_of a) -> In k (keys_of b) -> a = b.
Proof.
  unfold keys_of. simpl.
  intros [<- | [<- | [<- | []]]] [H | [H | [H | []]]].
  - now apply temperature_key_inj.
  - symmetry in H. now apply temperature_key_not_hardness in H.
  - symmetry in H. now apply temperature_key_not_current in H.
  - now apply temperature_key_not_hardness in H.
  - now apply hardness_key_inj.
  - symmetry in H. now apply hardness_key_not_current in H.
  - now apply temperature_key_not_current in H.
  - now apply hardness_key_not_current in H.
  - now apply current_key_inj.
Qed.

Lemma keys_of_NoDup a : NoDup (keys_of a).
Proof.
  unfold keys_of. repeat constructor; simpl.
  - intros [H | [H | []]].
    + symmetry in H. now apply temperature_key_not_hardness in H.
    + symmetry in H. now apply temperature_key_not_current in H.
  - intros [H | []]. symmetry in H. now apply hardness_key_not_current in H.
  - intros [].
Qed.

(** X13: with joint names that are all different, the keys built by the
    constructor are all different: no two readings are asked for under the
    same key, and a key belongs to one joint only. *)
Theorem distinct_joints_have_distinct_keys names E :
  NoDup names ->
  NoDup (keys_tocheck_ (Diagnostics_new names E)) /\
  (forall a b k,
      In k (keys_of a) -> In k (keys_of b) -> a = b).
Proof.
  intros Hnd. split; [ | intros a b k; apply keys_of_same_joint ].
  simpl. rewrite fold_push_keys. simpl.
  induction Hnd as [|it rest Hnotin Hrest IH]; [ constructor | ].
  cbn [flat_map]. apply NoDup_app; [ apply keys_of_NoDup | exact IH | ].
  intros k Hk Hin. apply in_flat_map in Hin.
  destruct Hin as (it' & Hit' & Hk').
  apply Hnotin. now rewrite (keys_of_same_joint _ _ _ Hk Hk').
Qed.

(** ** The further properties on worked cycles *)

Lemma hot_joints_text_witness :
  bulk_read as_floats (answer warm_answer) (keys_tocheck_ J12)
  = Some warm_answer /\
  publish as_floats show_any J12 t0 (answer warm_answer) []
  = Normal warm_cycle /\
  exists recs agg,
    channel warm_cycle
    = ([] ++ [ {| stamp := t0; status := (recs ++ [agg])%list |} ])%list /\
    lookup "Hot Joints" (values agg)
    = Some (VText (endl ++ "J1: " ++ show_any (of_Z 70) ++ degree_C)).
Proof.
  split; [ reflexivity | ]. split; [ reflexivity | ].
  destruct (hot_joints_text (list float) as_floats show_any J12 t0
              (answer warm_answer) [] warm_answer warm_cycle
              eq_refl eq_refl) as (recs & agg & Hch & Hhot & _).
  exists recs, agg. split; [ exact Hch | exact Hhot ].
Defined.

Lemma published_levels_in_range_witness :
  bulk_read as_floats (answer warm_answer) (keys_tocheck_ J12)
  = Some warm_answer /\
  publish as_floats show_any J12 t0 (answer warm_answer) []
  = Normal warm_cycle /\
  (level (status_ (object warm_cycle)) = OK \/
   level (status_ (object warm_cycle)) = WARN \/
   level (status_ (object warm_cycle)) = ERROR).
Proof.
  split; [ reflexivity | ]. split; [ reflexivity | ].
  exact (proj1 (published_levels_in_range (list float) as_floats show_any
                  J12 t0 (answer warm_answer) [] warm_answer warm_cycle
                  eq_refl eq_refl)).
Defined.

Lemma nan_temperature_is_error_witness :
  bulk_read as_floats (answer nan_answer) (keys_tocheck_ J12)
  = Some nan_answer /\
  publish as_floats show_any J12 t0 (answer nan_answer) []
  = Normal nan_cycle /\
  nth_error (joints_all_names_ J12) 1 = Some "J2" /\
  nth_error nan_answer (3 * 1) = Some S754_nan /\
  is_nan S754_nan = true /\
  returned nan_cycle = false /\
  level (status_ (object nan_cycle)) = ERROR.
Proof.
  split; [ reflexivity | ]. split; [ reflexivity | ].
  split; [ reflexivity | ]. split; [ reflexivity | ].
  split; [ reflexivity | ].
  destruct (nan_temperature_is_error (list float) as_floats show_any J12 t0
              (answer nan_answer) [] nan_answer nan_cycle 1%nat "J2"
              S754_nan eq_refl eq_refl eq_refl eq_refl eq_refl)
    as (Hret & Hlvl & _).
  split; [ exact Hret | exact Hlvl ].
Defined.

Lemma statistics_are_seeds_or_readings_witness :
  bulk_read as_floats (answer warm_answer) (keys_tocheck_ J12)
  = Some warm_answer /\
  publish as_floats show_any J12 t0 (answer warm_answer) []
  = Normal warm_cycle /\
  exists recs agg maxT,
    channel warm_cycle
    = ([] ++ [ {| stamp := t0; status := (recs ++ [agg])%list |} ])%list /\
    lookup "Highest Temperature" (values agg) = Some (VFloat maxT) /\
    is_nan maxT = false.
Proof.
  split; [ reflexivity | ]. split; [ reflexivity | ].
  destruct (statistics_are_seeds_or_readings (list float) as_floats show_any
              J12 t0 (answer warm_answer) [] warm_answer warm_cycle
              eq_refl eq_refl)
    as (recs & agg & maxT & maxS & minS & minSWH & maxC & minC
        & Hch & L1 & _ & _ & _ & _ & _ & (Hn & _) & _).
  exists recs, agg, maxT.
  split; [ exact Hch | ]. split; [ exact L1 | exact Hn ].
Defined.

Lemma statistics_bound_the_readings_witness :
  bulk_read as_floats (answer warm_answer) (keys_tocheck_ J12)
  = Some warm_answer /\
  publish as_floats show_any J12 t0 (answer warm_answer) []
  = Normal warm_cycle /\
  exists recs agg maxT,
    channel warm_cycle
    = ([] ++ [ {| stamp := t0; status := (recs ++ [agg])%list |} ])%list /\
    lookup "Highest Temperature" (values agg) = Some (VFloat maxT) /\
    leb (of_Z 70) maxT = true.
Proof.
  split; [ reflexivity | ]. split; [ reflexivity | ].
  destruct (statistics_bound_the_readings (list float) as_floats show_any
              J12 t0 (answer warm_answer) [] warm_answer warm_cycle
              eq_refl eq_refl)
    as (recs & agg & maxT & maxS & minS & minSWH & maxC & minC
        & Hch & L1 & _ & _ & _ & _ & _ & Hall).
  exists recs, agg, maxT. split; [ exact Hch | ]. split; [ exact L1 | ].
  exact (proj1 (Hall 0%nat "J1" (of_Z 70) f_half (of_Z 2)
                  eq_refl eq_refl eq_refl eq_refl) eq_refl).
Defined.

Lemma lowest_stiffness_le_without_hands_witness :
  bulk_read as_floats (answer hand_answer) (keys_tocheck_ hand_and_shoulder)
  = Some hand_answer /\
  publish as_floats show_any hand_and_shoulder t0 (answer hand_answer) []
  = Normal hand_cycle /\
  exists recs agg minS minSWH,
    channel hand_cycle
    = ([] ++ [ {| stamp := t0; status := (recs ++ [agg])%list |} ])%list /\
    lookup "Lowest Stiffness" (values agg) = Some (VFloat minS) /\
    lookup "Lowest Stiffness without Hands" (values agg)
    = Some (VFloat minSWH) /\
    leb minS minSWH = true.
Proof.
  split; [ reflexivity | ]. split; [ reflexivity | ].
  exact (lowest_stiffness_le_without_hands (list float) as_floats show_any
           hand_and_shoulder t0 (answer hand_answer) [] hand_answer
           hand_cycle eq_refl eq_refl).
Defined.

Lemma hotter_joint_not_lower_witness :
  leb (of_Z 60) (of_Z 70) = true /\
  level (joint_status J12 "J2" (of_Z 60) f_half (of_Z 1))
  <= level (joint_status J12 "J1" (of_Z 70) f_half (of_Z 2)).
Proof.
  split; [ reflexivity | ].
  apply (hotter_joint_not_lower J12 "J2" "J1" (of_Z 60) (of_Z 70)).
  reflexivity.
Defined.

Lemma publish_touches_only_the_running_status_witness :
  publish as_floats show_any J12 t0 (answer warm_answer) []
  = Normal warm_cycle /\
  temperature_warn_level_ (object warm_cycle) = temperature_warn_level_ J12 /\
  name (status_ (object warm_cycle)) = name (status_ J12).
Proof.
  split; [ reflexivity | ].
  destruct (publish_touches_only_the_running_status (list float) as_floats
              show_any J12 t0 (answer warm_answer) [] warm_cycle eq_refl)
    as (_ & Hw & _ & _ & Hn & _).
  split; [ exact Hw | exact Hn ].
Defined.

Lemma cycles_are_independent_witness :
  publish as_floats show_any J12 t0 (answer hot_answer) []
  = Normal hot_cycle /\
  publish as_floats show_any (object hot_cycle) t0 (answer warm_answer)
          (channel hot_cycle)
  = publish as_floats show_any J12 t0 (answer warm_answer)
            (channel hot_cycle).
Proof.
  split; [ reflexivity | ].
  apply (cycles_are_independent (list float) as_floats show_any J12 t0
           (answer hot_answer) [] hot_cycle).
  reflexivity.
Defined.

Lemma healthy_return_iff_witness :
  bulk_read as_floats (answer warm_answer) (keys_tocheck_ J12)
  = Some warm_answer /\
  publish as_floats show_any J12 t0 (answer warm_answer) []
  = Normal warm_cycle /\
  (returned warm_cycle = true <->
   forall i it t,
     nth_error (joints_all_names_ J12) i = Some it ->
     nth_error warm_answer (3 * i) = Some t ->
     below_a_level J12 t = true).
Proof.
  split; [ reflexivity | ]. split; [ reflexivity | ].
  apply (healthy_return_iff (list float) as_floats show_any J12 t0
           (answer warm_answer) [] warm_answer warm_cycle);
    reflexivity.
Defined.

Lemma unhealthy_return_names_first_joint_witness :
  bulk_read as_floats (answer hot_answer) (keys_tocheck_ J12)
  = Some hot_answer /\
  publish as_floats show_any J12 t0 (answer hot_answer) []
  = Normal hot_cycle /\
  returned hot_cycle = false /\
  exists i it t,
    nth_error (joints_all_names_ J12) i = Some it /\
    nth_error hot_answer (3 * i) = Some t /\
    below_a_level J12 t = false /\
    getStatusMsg (object hot_cycle) = "HIGH JOINT TEMPERATURE : " ++ it.
Proof.
  split; [ reflexivity | ]. split; [ reflexivity | ].
  split; [ reflexivity | ].
  destruct (unhealthy_return_names_first_joint (list float) as_floats
              show_any J12 t0 (answer hot_answer) [] hot_answer hot_cycle
              eq_refl eq_refl eq_refl)
    as (i & it & t & Hi & Ht & Hb & _ & Hmsg).
  exists i, it, t. repeat split; assumption.
Defined.

Lemma joint_order_does_not_matter_witness :
  temperature_warn_level_ J12 = temperature_warn_level_ J21 /\
  temperature_error_level_ J12 = temperature_error_level_ J21 /\
  publish as_floats show_any J12 t0 (answer warm_answer) []
  = Normal warm_cycle /\
  publish as_floats show_any J21 t0 (answer swapped_answer) []
  = Normal swapped_cycle /\
  Permutation (joint_readings (joints_all_names_ J12) warm_answer)
              (joint_readings (joints_all_names_ J21) swapped_answer) /\
  returned warm_cycle = returned swapped_cycle /\
  level (status_ (object warm_cycle))
  = level (status_ (object swapped_cycle)).
Proof.
  split; [ reflexivity | ]. split; [ reflexivity | ].
  split; [ reflexivity | ]. split; [ reflexivity | ].
  assert (Permutation (joint_readings (joints_all_names_ J12) warm_answer)
            (joint_readings (joints_all_names_ J21) swapped_answer))
    as Hperm by (simpl; apply perm_swap).
  split; [ exact Hperm | ].
  destruct (joint_order_does_not_matter (list float) as_floats show_any
              J12 J21 t0 t0 (answer warm_answer) (answer swapped_answer)
              [] [] warm_answer swapped_answer warm_cycle swapped_cycle
              eq_refl eq_refl eq_refl eq_refl eq_refl eq_refl Hperm)
    as (Hret & Hlvl & _).
  split; [ exact Hret | exact Hlvl ].
Defined.

Lemma distinct_joints_have_distinct_keys_witness :
  NoDup ["J1"; "J2"] /\ NoDup (keys_tocheck_ J12).
Proof.
  assert (NoDup ["J1"; "J2"]) as Hnd.
  { repeat constructor; simpl; intuition discriminate. }
  split; [ exact Hnd | ].
  exact (proj1 (distinct_joints_have_distinct_keys ["J1"; "J2"] (of_Z 75)
                  Hnd)).
Defined.

Lemma surplus_values_are_ignored_witness :
  bulk_read as_floats (answer warm_answer) (keys_tocheck_ J12)
  = Some warm_answer /\
  bulk_read as_floats (answer (warm_answer ++ [ of_Z 99 ])) (keys_tocheck_ J12)
  = Some (warm_answer ++ [ of_Z 99 ])%list /\
  (3 * List.length (joints_all_names_ J12) <= List.length warm_answer)%nat /\
  publish as_floats show_any J12 t0 (answer (warm_answer ++ [ of_Z 99 ])) []
  = publish as_floats show_any J12 t0 (answer warm_answer) [].
Proof.
  split; [ reflexivity | ]. split; [ reflexivity | ].
  split; [ simpl; lia | ].
  apply (surplus_values_are_ignored (list float) as_floats show_any J12 t0
           (answer warm_answer) (answer (warm_answer ++ [ of_Z 99 ])) []
           warm_answer [ of_Z 99 ]);
    [ reflexivity | reflexivity | simpl; lia ].
Defined.
